(** * Webhook receiver for "SMS received" events (src/main.py)

    A shallow embedding of the FastAPI service in [src/main.py]: the settings
    object, the pydantic payload models, the registration handshake run by
    [lifespan], and the request handler [handle_sms_webhook], followed by the
    properties of the specification that concern them.

    Conventions.
    - Python [bytes] are [list byte]; Python [str] is [string], each character
      being one code point in the range U+0000..U+00FF.  That range is exact
      for header values (Starlette decodes them as latin-1) and is the domain
      over which the settings strings are considered.
    - Code that prints, reads [app.state], talks to the gateway or raises is
      written in the monad [App], which threads a [World] and stops at the
      first exception.
    - [hashlib.sha256] and [hmac.new] are given by their definitions
      (FIPS 180-4, RFC 2104) and checked against published test vectors. *)

From Stdlib Require Import ZArith NArith List Bool Lia.
From Stdlib.Strings Require Import String Ascii Byte.
From Stdlib Require Import DecimalString.
Import ListNotations.

Local Open Scope string_scope.
Local Open Scope list_scope.

(** [s1 + s2] on [str]; [++] is kept for lists and [bytes]. *)
Infix "+++" := String.append (right associativity, at level 60).

(** ** Python values: [bytes] and [str] *)

Definition bytes := list byte.
Definition str := string.

Definition byte_of_N (n : N) : byte :=
  match Byte.of_N (n mod 256) with
  | Some b => b
  | None => x00
  end.

Definition code_point (c : ascii) : N := N_of_ascii c.

(** [s.encode()]: UTF-8, the default encoding of [str.encode]. *)
Definition encode_char (c : ascii) : bytes :=
  let n := code_point c in
  if (n <? 128)%N then [byte_of_N n]
  else [byte_of_N (192 + n / 64); byte_of_N (128 + n mod 64)].

Fixpoint encode (s : str) : bytes :=
  match s with
  | EmptyString => []
  | String c rest => encode_char c ++ encode rest
  end.

(** A literal [b"..."] whose characters are all ASCII. *)
Definition bytes_literal (s : string) : bytes := list_byte_of_string s.

Fixpoint isascii (s : str) : bool :=
  match s with
  | EmptyString => true
  | String c rest => (code_point c <? 128)%N && isascii rest
  end.

Definition lower_char (c : ascii) : ascii :=
  let n := code_point c in
  if ((65 <=? n) && (n <=? 90))%N then ascii_of_N (n + 32) else c.

Fixpoint lower (s : str) : str :=
  match s with
  | EmptyString => EmptyString
  | String c rest => String (lower_char c) (lower rest)
  end.

(** Truthiness of an optional string, as tested by [if x:] and [not x]:
    [None] and the empty string are false.  The result carries the string
    when it is truthy. *)
Definition truthy (x : option str) : option str :=
  match x with
  | Some EmptyString => None
  | Some s => Some s
  | None => None
  end.

(** [str(n)] for an [int]. *)
Definition str_of_int (n : Z) : str := NilZero.string_of_int (Z.to_int n).

(** ** hashlib.sha256 *)

Module SHA256.

Local Open Scope N_scope.

Definition mask32 : N := 0xFFFFFFFF.
Definition add32 (a b : N) : N := (a + b) mod 0x100000000.
Definition not32 (a : N) : N := N.lxor a mask32.
Definition rotr (n a : N) : N :=
  N.lor (N.shiftr a n) (N.land (N.shiftl a (32 - n)) mask32).
Definition shr (n a : N) : N := N.shiftr a n.

Definition Ch (x y z : N) : N := N.lxor (N.land x y) (N.land (not32 x) z).
Definition Maj (x y z : N) : N :=
  N.lxor (N.lxor (N.land x y) (N.land x z)) (N.land y z).
Definition Sigma0 (x : N) : N := N.lxor (N.lxor (rotr 2 x) (rotr 13 x)) (rotr 22 x).
Definition Sigma1 (x : N) : N := N.lxor (N.lxor (rotr 6 x) (rotr 11 x)) (rotr 25 x).
Definition sigma0 (x : N) : N := N.lxor (N.lxor (rotr 7 x) (rotr 18 x)) (shr 3 x).
Definition sigma1 (x : N) : N := N.lxor (N.lxor (rotr 17 x) (rotr 19 x)) (shr 10 x).

(** The constants of FIPS 180-4 are fractional parts of roots of the first
    primes, on 32 bits: cube roots of the first 64 primes for the round
    constants, square roots of the first 8 for the initial hash value. *)
Definition primes : list N :=
  [2; 3; 5; 7; 11; 13; 17; 19; 23; 29; 31; 37; 41; 43; 47; 53; 59; 61; 67; 71;
   73; 79; 83; 89; 97; 101; 103; 107; 109; 113; 127; 131; 137; 139; 149; 151;
   157; 163; 167; 173; 179; 181; 191; 193; 197; 199; 211; 223; 227; 229; 233;
   239; 241; 251; 257; 263; 269; 271; 277; 281; 283; 293; 307; 311].

(** The integer cube root, one bit at a time from bit [n - 1] down. *)
Fixpoint cbrt_from (n : nat) (x r : N) : N :=
  match n with
  | O => r
  | S n' =>
      let c := r + 2 ^ N.of_nat n' in
      cbrt_from n' x (if c * c * c <=? x then c else r)
  end.

Definition frac_cbrt (p : N) : N := cbrt_from 36 (p * 2 ^ 96) 0 mod 2 ^ 32.
Definition frac_sqrt (p : N) : N := N.sqrt (p * 2 ^ 64) mod 2 ^ 32.

Definition K : list N := Eval vm_compute in map frac_cbrt primes.

(** The eight working variables a..h. *)
Definition state : Type := N * N * N * N * N * N * N * N.

Definition H0 : state :=
  Eval vm_compute in
    match map frac_sqrt (firstn 8 primes) with
    | [a; b; c; d; e; f; g; h] => (a, b, c, d, e, f, g, h)
    | _ => (0, 0, 0, 0, 0, 0, 0, 0)
    end.

(** Padding: a 1 bit, zeros up to 56 modulo 64, the bit length on 64 bits. *)
Definition be_bytes (width : nat) (v : N) : list N :=
  map (fun i => (v / 2 ^ (8 * N.of_nat i)) mod 256) (rev (seq 0 width)).

Definition pad (msg : list N) : list N :=
  let len := N.of_nat (List.length msg) in
  let zeros := (64 - (len + 9) mod 64) mod 64 in
  msg ++ [0x80] ++ repeat 0 (N.to_nat zeros) ++ be_bytes 8 (8 * len).

Definition be_word (b3 b2 b1 b0 : N) : N :=
  b3 * 0x1000000 + b2 * 0x10000 + b1 * 0x100 + b0.

Fixpoint words (bs : list N) : list N :=
  match bs with
  | b3 :: b2 :: b1 :: b0 :: rest => be_word b3 b2 b1 b0 :: words rest
  | _ => []
  end.

Fixpoint blocks (fuel : nat) (ws : list N) : list (list N) :=
  match fuel, ws with
  | S fuel', _ :: _ => firstn 16 ws :: blocks fuel' (skipn 16 ws)
  | _, _ => []
  end.

(** Message schedule, most recent word first: [recent] holds W(t-1), W(t-2),
    ... and the next word is built from W(t-2), W(t-7), W(t-15), W(t-16). *)
Fixpoint extend (n : nat) (recent : list N) : list N :=
  match n with
  | O => recent
  | S n' =>
      let w := add32 (add32 (sigma1 (nth 1 recent 0)) (nth 6 recent 0))
                     (add32 (sigma0 (nth 14 recent 0)) (nth 15 recent 0)) in
      extend n' (w :: recent)
  end.

Definition schedule (block : list N) : list N := rev (extend 48 (rev block)).

Definition round (s : state) (kw : N * N) : state :=
  let '(a, b, c, d, e, f, g, h) := s in
  let t1 := add32 (add32 (add32 h (Sigma1 e)) (add32 (Ch e f g) (fst kw))) (snd kw) in
  let t2 := add32 (Sigma0 a) (Maj a b c) in
  (add32 t1 t2, a, b, c, add32 d t1, e, f, g).

Definition compress (s : state) (block : list N) : state :=
  let '(a, b, c, d, e, f, g, h) := s in
  let '(a', b', c', d', e', f', g', h') :=
    fold_left round (combine K (schedule block)) s in
  (add32 a a', add32 b b', add32 c c', add32 d d',
   add32 e e', add32 f f', add32 g g', add32 h h').

Definition word_bytes (w : N) : bytes :=
  [byte_of_N (w / 0x1000000); byte_of_N (w / 0x10000); byte_of_N (w / 0x100); byte_of_N w].

Definition digest_of_state (s : state) : bytes :=
  let '(a, b, c, d, e, f, g, h) := s in
  word_bytes a ++ word_bytes b ++ word_bytes c ++ word_bytes d ++
  word_bytes e ++ word_bytes f ++ word_bytes g ++ word_bytes h.

(** [hashlib.sha256(msg).digest()] *)
Definition sha256 (msg : bytes) : bytes :=
  let ws := words (pad (map Byte.to_N msg)) in
  digest_of_state (fold_left compress (blocks (List.length ws) ws) H0).

End SHA256.

(** ** hmac.new(key, msg, hashlib.sha256) and hexdigest *)

Definition xor_byte (pad : N) (b : byte) : byte := byte_of_N (N.lxor (Byte.to_N b) pad).

Definition block_size : nat := 64.

Definition hmac_key_block (key : bytes) : bytes :=
  let k := if Nat.ltb block_size (List.length key) then SHA256.sha256 key else key in
  k ++ repeat x00 (block_size - List.length k).

(** The digest of [hmac.new(key, msg, hashlib.sha256)]. *)
Definition hmac_new (key msg : bytes) : bytes :=
  let k := hmac_key_block key in
  SHA256.sha256 (map (xor_byte 0x5c) k ++ SHA256.sha256 (map (xor_byte 0x36) k ++ msg)).

Definition hex_digit (n : N) : ascii :=
  if (n <? 10)%N then ascii_of_N (48 + n) else ascii_of_N (87 + n).

Fixpoint hexdigest (digest : bytes) : str :=
  match digest with
  | [] => EmptyString
  | b :: rest =>
      String (hex_digit (Byte.to_N b / 16))
        (String (hex_digit (Byte.to_N b mod 16)) (hexdigest rest))
  end.

(** [hmac.compare_digest(a, b)] on two [str]: both must be ASCII, otherwise
    the call raises [TypeError] ("comparing strings with non-ASCII characters
    is not supported").  The answer is the equality of the two strings; that
    the comparison takes time independent of the contents is not modelled. *)
Definition compare_digest (a b : str) : option bool :=
  if isascii a && isascii b then Some (String.eqb a b) else None.

(** ** Configuration model (lines 13-30) *)

Record Settings := {
  api_url : str;
  api_username : option str;
  api_password : option str;
  webhook_secret : option str;
  webhook_url : option str;
  ssl_cert : option str;
  ssl_key : option str
}.

(** The value [Settings()] takes when no variable is set. *)
Definition default_settings : Settings := {|
  api_url := "https://api.sms-gate.app/3rdparty/v1";
  api_username := None;
  api_password := None;
  webhook_secret := None;
  webhook_url := None;
  ssl_cert := None;
  ssl_key := None
|}.

(** ** Webhook payload models (lines 34-47) *)

Record datetime := {
  year : N; month : N; day : N;
  hour : N; minute : N; second : N; microsecond : N;
  utcoffset : option Z  (* seconds east of UTC; [None] for a naive value *)
}.

Record SMSReceivedData := {
  message : str;
  received_at : datetime;
  message_id : str;
  phone_number : str;
  sim_number : Z
}.

Record WebhookPayload := {
  device_id : str;
  event : str;
  id_ : str;
  webhook_id : str;
  payload : SMSReceivedData
}.

(** [str(d)] for a [datetime]: [d.isoformat(sep=' ')]. *)
Fixpoint zeros (n : nat) : str :=
  match n with
  | O => EmptyString
  | S n' => String "0" (zeros n')
  end.

Definition zfill (width : nat) (s : str) : str :=
  zeros (width - String.length s) +++ s.

Definition str_of_N (n : N) : str := NilZero.string_of_uint (N.to_uint n).

Definition digits (width : nat) (n : N) : str := zfill width (str_of_N n).

Definition str_of_utcoffset (off : Z) : str :=
  let a := Z.to_N (Z.abs off) in
  (if (off <? 0)%Z then "-" else "+")
    +++ digits 2 (a / 3600) +++ ":" +++ digits 2 ((a mod 3600) / 60)
    +++ (if (a mod 60 =? 0)%N then EmptyString else ":" +++ digits 2 (a mod 60)).

Definition str_of_datetime (d : datetime) : str :=
  digits 4 (year d) +++ "-" +++ digits 2 (month d) +++ "-" +++ digits 2 (day d)
    +++ " " +++ digits 2 (hour d) +++ ":" +++ digits 2 (minute d) +++ ":" +++ digits 2 (second d)
    +++ (if (microsecond d =? 0)%N then EmptyString else "." +++ digits 6 (microsecond d))
    +++ match utcoffset d with
       | None => EmptyString
       | Some off => str_of_utcoffset off
       end.

(** ** The request, the gateway and the process state *)

(** The header list of the ASGI scope: names arrive lower-cased, values are
    decoded as latin-1. *)
Definition Headers := list (str * str).

Record Request := {
  headers : Headers;
  body : bytes
}.

(** [request.headers.get(key)]: the first header whose name is [key.lower()]. *)
Fixpoint headers_find (name : str) (hs : Headers) : option str :=
  match hs with
  | [] => None
  | (k, v) :: rest => if String.eqb k name then Some v else headers_find name rest
  end.

Definition headers_get (hs : Headers) (key : str) : option str :=
  headers_find (lower key) hs.

(** A JSON object with string members, enough for the bodies exchanged with
    the gateway and for the handler's reply. *)
Definition JSON := list (str * str).

Fixpoint getitem (d : JSON) (key : str) : option str :=
  match d with
  | [] => None
  | (k, v) :: rest => if String.eqb k key then Some v else getitem rest key
  end.

(** Outbound calls made through [httpx.AsyncClient]. *)
Inductive Call :=
| POST (url : str) (auth : str * str) (json : JSON)
| DELETE (url : str) (auth : str * str).

(** What [response.json()] returns: an object, whose members are strings by
    the gateway's contract, or any other JSON document (an array, a string,
    a number, [true], [false], [null]). *)
Inductive Document :=
| Object (members : JSON)
| NotAnObject.

Record Response := {
  status_code : Z;
  response_json : option Document  (* [None]: the body is not a JSON text *)
}.

(** What becomes of a call: a response comes back; or the connection cannot
    be made and httpx raises before anything leaves the process; or the
    request leaves and no response comes back (a timeout, a connection
    closed by the peer).  httpx raises a transport error in the last two
    cases. *)
Inductive Reply :=
| Answered (response : Response)
| NotSent
| NoAnswer.

Definition Gateway := Call -> Reply.

Inductive exception :=
| HTTPException (status_code : Z) (detail : str)
| AttributeError (name : str)
| TypeError
| KeyError (key : str)
| JSONDecodeError
| HTTPStatusError (status_code : Z)
| TransportError.

(** [app.state] holds at most the attribute [webhook_id]; [stdout] collects
    the printed lines and [outbound] the calls that left the process for
    the gateway, oldest first. *)
Record World := {
  app_state_webhook_id : option str;
  stdout : list str;
  outbound : list Call
}.

Definition initial_world : World := {|
  app_state_webhook_id := None;
  stdout := [];
  outbound := []
|}.

(** ** The monad of the application code *)

Definition App (A : Type) : Type := World -> World * (exception + A).

Definition ret {A} (a : A) : App A := fun w => (w, inr a).

Definition raise {A} (e : exception) : App A := fun w => (w, inl e).

Definition bind {A B} (m : App A) (k : A -> App B) : App B :=
  fun w =>
    match m w with
    | (w', inr a) => k a w'
    | (w', inl e) => (w', inl e)
    end.

Declare Scope app_scope.
Delimit Scope app_scope with app.
Bind Scope app_scope with App.
Notation "x <- m ;; k" := (bind m (fun x => k))
  (at level 61, m at next level, right associativity) : app_scope.
Notation "m ;; k" := (bind m (fun _ => k))
  (at level 61, right associativity) : app_scope.
Local Open Scope app_scope.

(** The world after [lines] were printed, and after [calls] were sent. *)
Definition printed (w : World) (lines : list str) : World :=
  {| app_state_webhook_id := app_state_webhook_id w;
     stdout := stdout w ++ lines;
     outbound := outbound w |}.

Definition called (w : World) (calls : list Call) : World :=
  {| app_state_webhook_id := app_state_webhook_id w;
     stdout := stdout w;
     outbound := outbound w ++ calls |}.

Definition print (line : str) : App unit :=
  fun w => (printed w [line], inr tt).

(** [app.state.webhook_id]: Starlette's [State.__getattr__] raises
    [AttributeError] for an attribute that was never set. *)
Definition getattr_webhook_id : App str :=
  fun w =>
    match app_state_webhook_id w with
    | Some v => (w, inr v)
    | None => (w, inl (AttributeError "webhook_id"))
    end.

(** [hasattr(app.state, "webhook_id")], with the value when it is there. *)
Definition hasattr_webhook_id : App (option str) :=
  fun w => (w, inr (app_state_webhook_id w)).

Definition setattr_webhook_id (v : str) : App unit :=
  fun w => ({| app_state_webhook_id := Some v;
               stdout := stdout w;
               outbound := outbound w |}, inr tt).

(** The result of a call that either returns or raises [e]. *)
Definition or_raise {A} (x : option A) (e : exception) : App A :=
  match x with
  | Some a => ret a
  | None => raise e
  end.

(** The world once [call] has met [reply]: the call is recorded as sent
    unless the connection could not be made. *)
Definition after_call (w : World) (call : Call) (reply : Reply) : World :=
  match reply with
  | NotSent => w
  | Answered _ | NoAnswer => called w [call]
  end.

(** [client.post(...)] / [client.delete(...)]: the response is returned or a
    transport error is raised. *)
Definition send (gateway : Gateway) (call : Call) : App Response :=
  fun w =>
    match gateway call with
    | Answered response => (after_call w call (gateway call), inr response)
    | NotSent | NoAnswer => (after_call w call (gateway call), inl TransportError)
    end.

(** [data[key]] on what [response.json()] returned: [KeyError] for an object
    without the key, [TypeError] for a document that is not an object. *)
Definition subscript (data : Document) (key : str) : App str :=
  match data with
  | Object members => or_raise (getitem members key) (KeyError key)
  | NotAnObject => raise TypeError
  end.

(** [response.raise_for_status()]: any status outside 2xx raises. *)
Definition raise_for_status (response : Response) : App unit :=
  if ((200 <=? status_code response) && (status_code response <? 300))%Z
  then ret tt
  else raise (HTTPStatusError (status_code response)).

(** ** The service (lines 54-148) *)

Section Service.

Variable settings : Settings.
Variable gateway : Gateway.

(** [WebhookPayload.model_validate_json]: [None] when validation raises. *)
Variable model_validate_json : bytes -> option WebhookPayload.

(** Lines 54-76. *)
Definition register_webhook : App unit :=
  match truthy (api_username settings),
        truthy (api_password settings),
        truthy (webhook_url settings) with
  | Some username, Some password, Some url =>
      response <- send gateway
        (POST (api_url settings +++ "/webhooks") (username, password)
              [("url", url); ("event", "sms:received")]) ;;
      raise_for_status response ;;
      webhook_data <- or_raise (response_json response) JSONDecodeError ;;
      webhook_data_id <- subscript webhook_data "id" ;;
      setattr_webhook_id webhook_data_id ;;
      print ("Registered webhook with ID: " +++ webhook_data_id)
  | _, _, _ => ret tt
  end.

(** Lines 79-96. *)
Definition unregister_webhook : App unit :=
  attr <- hasattr_webhook_id ;;
  match truthy (api_username settings),
        truthy (api_password settings),
        truthy (webhook_url settings),
        attr with
  | Some username, Some password, Some _, Some registered =>
      response <- send gateway
        (DELETE (api_url settings +++ "/webhooks/" +++ registered) (username, password)) ;;
      raise_for_status response ;;
      print ("Unregistered webhook ID: " +++ registered)
  | _, _, _, _ => ret tt
  end.

(** Lines 99-107.  [serving] is what runs while the generator is suspended at
    [yield]; an exception on either side of it leaves the generator. *)
Definition lifespan (serving : App unit) : App unit :=
  register_webhook ;;
  serving ;;
  unregister_webhook.

(** Lines 119-130, the block headed "Verify HMAC signature" of
    [handle_sms_webhook]. *)
Definition verify_signature (request : Request) : App unit :=
  match truthy (webhook_secret settings) with
  | Some secret =>
      match truthy (headers_get (headers request) "X-Signature"),
            truthy (headers_get (headers request) "X-Timestamp") with
      | Some signature, Some timestamp =>
          let expected_signature :=
            hexdigest (hmac_new (encode secret) (body request ++ encode timestamp)) in
          same <- or_raise (compare_digest signature expected_signature) TypeError ;;
          if negb same
          then raise (HTTPException 401 "Invalid signature")
          else ret tt
      | _, _ => raise (HTTPException 401 "Missing signature header")
      end
  | None => ret tt
  end.

(** What lines 142-146 print for an accepted payload, as one list. *)
Definition received_lines (p : WebhookPayload) : list str :=
  [ "Received SMS:";
    "SIM: " +++ str_of_int (sim_number (payload p));
    "From: " +++ phone_number (payload p);
    "Message: " +++ message (payload p);
    "Received at: " +++ str_of_datetime (received_at (payload p)) ].

(** Lines 113-148. *)
Definition handle_sms_webhook (request : Request) : App JSON :=
  verify_signature request ;;
  parsed <- or_raise (model_validate_json (body request))
                     (HTTPException 400 "Invalid payload format") ;;
  registered <- getattr_webhook_id ;;
  if negb (String.eqb (webhook_id parsed) registered)
  then raise (HTTPException 400 "Invalid webhook ID")
  else
    print "Received SMS:" ;;
    print ("SIM: " +++ str_of_int (sim_number (payload parsed))) ;;
    print ("From: " +++ phone_number (payload parsed)) ;;
    print ("Message: " +++ message (payload parsed)) ;;
    print ("Received at: " +++ str_of_datetime (received_at (payload parsed))) ;;
    ret [("status", "ok")].

End Service.

(** ** What FastAPI sends for the handler's outcome

    A returned dict is sent as 200 with that JSON body; an [HTTPException] as
    its status code with body [{"detail": ...}]; any other exception reaches
    the server-error middleware, which answers 500. *)

Inductive Content :=
| JSONContent (j : JSON)
| TextContent (s : str).

Record HTTPResponse := {
  status : Z;
  content : Content
}.

Definition respond (outcome : exception + JSON) : HTTPResponse :=
  match outcome with
  | inr j => {| status := 200; content := JSONContent j |}
  | inl (HTTPException code detail) =>
      {| status := code; content := JSONContent [("detail", detail)] |}
  | inl _ => {| status := 500; content := TextContent "Internal Server Error" |}
  end.

(** POST /webhook/sms-received *)
Definition post_sms_received (settings : Settings)
    (model_validate_json : bytes -> option WebhookPayload)
    (request : Request) (w : World) : World * HTTPResponse :=
  let (w', outcome) := handle_sms_webhook settings model_validate_json request w in
  (w', respond outcome).

(** ** The entry point (lines 151-160)

    The arguments of [uvicorn.run]: the port is 8080 unless both the
    certificate and the key are set, and the two paths are handed over as
    they are. *)

Record RunArguments := {
  host : str;
  port : Z;
  ssl_keyfile : option str;
  ssl_certfile : option str
}.

Definition run_arguments (settings : Settings) : RunArguments :=
  {| host := "0.0.0.0";
     port := match truthy (ssl_cert settings), truthy (ssl_key settings) with
             | Some _, Some _ => 8443
             | _, _ => 8080
             end;
     ssl_keyfile := ssl_key settings;
     ssl_certfile := ssl_cert settings |}.

(** ** The server around the application

    [uvicorn.run(app, ...)] drives the application through the ASGI lifespan
    protocol.  Starlette's [Router.lifespan] enters the context manager of
    lines 99-107: once the part before [yield] has run it sends
    [lifespan.startup.complete] and waits for the shutdown event while the
    requests are served, then it runs the part after [yield] and sends
    [lifespan.shutdown.complete]; an exception on either side is caught,
    reported with its traceback as [lifespan.startup.failed] or
    [lifespan.shutdown.failed], and raised again.  uvicorn's [LifespanOn]
    logs what it is told and swallows the exception that follows a failure
    message.  After a failed startup the server is never started and
    [uvicorn.run] ends the process with [sys.exit(3)]; in every other case
    the process ends as it does after a clean shutdown. *)

(** The requests served between startup and shutdown, one after the other;
    no outcome of the handler stops the server. *)
Fixpoint serve (settings : Settings)
    (model_validate_json : bytes -> option WebhookPayload)
    (requests : list Request) (w : World) : World :=
  match requests with
  | [] => w
  | request :: rest =>
      serve settings model_validate_json rest
        (fst (post_sms_received settings model_validate_json request w))
  end.

(** How [Router.lifespan] ends. *)
Inductive LifespanOutcome :=
| StartupFailed (e : exception)   (* lifespan.startup.failed, [e] raised again *)
| ShutdownFailed (e : exception)  (* lifespan.shutdown.failed, [e] raised again *)
| Completed.                      (* lifespan.shutdown.complete *)

Definition router_lifespan (settings : Settings) (gateway : Gateway)
    (serving : World -> World) (w : World) : World * LifespanOutcome :=
  match register_webhook settings gateway w with
  | (w1, inl e) => (w1, StartupFailed e)
  | (w1, inr _) =>
      match unregister_webhook settings gateway (serving w1) with
      | (w3, inl e) => (w3, ShutdownFailed e)
      | (w3, inr _) => (w3, Completed)
      end
  end.

(** The records of uvicorn's logger that come from [LifespanOn]. *)
Inductive LogRecord :=
| INFO (message : str)
| ERROR (message : str)
| ERROR_traceback (e : exception).

Inductive ExitStatus :=
| exit_as_usual
| exit_startup_failure.   (* [sys.exit(3)] *)

Record Run := {
  final_world : World;
  uvicorn_log : list LogRecord;
  exit_status : ExitStatus
}.

Definition uvicorn_run (settings : Settings) (gateway : Gateway)
    (model_validate_json : bytes -> option WebhookPayload)
    (requests : list Request) (w : World) : Run :=
  match router_lifespan settings gateway
          (serve settings model_validate_json requests) w with
  | (w', StartupFailed e) =>
      {| final_world := w';
         uvicorn_log := [INFO "Waiting for application startup.";
                         ERROR_traceback e;
                         ERROR "Application startup failed. Exiting."];
         exit_status := exit_startup_failure |}
  | (w', ShutdownFailed e) =>
      {| final_world := w';
         uvicorn_log := [INFO "Waiting for application startup.";
                         INFO "Application startup complete.";
                         INFO "Waiting for application shutdown.";
                         ERROR_traceback e;
                         ERROR "Application shutdown failed. Exiting."];
         exit_status := exit_as_usual |}
  | (w', Completed) =>
      {| final_world := w';
         uvicorn_log := [INFO "Waiting for application startup.";
                         INFO "Application startup complete.";
                         INFO "Waiting for application shutdown.";
                         INFO "Application shutdown complete."];
         exit_status := exit_as_usual |}
  end.

(** ** A decoder for the wire format of the payload models

    [Wire.model_validate_json] reads the JSON documents that the models of
    lines 34-47 describe: an object with members [deviceId], [event] (which
    must be ["sms:received"]), [id], [webhookId] and [payload], the latter an
    object with [message], [receivedAt] (ISO 8601, seconds precision, with an
    optional [Z] or [+HH:MM] / [-HH:MM] suffix), [messageId], [phoneNumber]
    and [simNumber].  Members may come in any order and unknown members are
    ignored.  It reads a part of what pydantic reads: ASCII text only, no
    string escapes, numbers that are plain digits without a leading zero and
    below 2^63, no arrays, no repeated member, objects nested at most two
    deep, dates that exist in the calendar.  It serves as the instance at
    which the properties below, stated for every validator, are
    exercised. *)

Module Wire.

Inductive token :=
| LBrace | RBrace | Colon | Comma
| Str (s : str)
| Int (n : N).

Inductive mode :=
| Idle
| InStr (acc : list ascii)   (* characters read so far, last first *)
| InNum (n : N).

Definition quote : ascii := "034"%char.
Definition backslash : ascii := "092"%char.

Definition is_space (c : ascii) : bool :=
  let n := code_point c in
  ((n =? 32) || (n =? 9) || (n =? 10) || (n =? 13))%N.

Definition digit_value (c : ascii) : option N :=
  let n := code_point c in
  if ((48 <=? n) && (n <=? 57))%N then Some (n - 48)%N else None.

(** A character met outside strings and numbers. *)
Definition start (c : ascii) : option (list token * mode) :=
  if is_space c then Some ([], Idle)
  else if Ascii.eqb c "{" then Some ([LBrace], Idle)
  else if Ascii.eqb c "}" then Some ([RBrace], Idle)
  else if Ascii.eqb c ":" then Some ([Colon], Idle)
  else if Ascii.eqb c "," then Some ([Comma], Idle)
  else if Ascii.eqb c quote then Some ([], InStr [])
  else match digit_value c with
       | Some d => Some ([], InNum d)
       | None => None
       end.

Fixpoint lex (m : mode) (cs : list ascii) : option (list token) :=
  match cs with
  | [] =>
      match m with
      | Idle => Some []
      | InNum n => Some [Int n]
      | InStr _ => None
      end
  | c :: rest =>
      match m with
      | InStr acc =>
          if Ascii.eqb c quote
          then option_map (cons (Str (string_of_list_ascii (rev acc)))) (lex Idle rest)
          else if Ascii.eqb c backslash || (code_point c <? 32)%N
                  || (127 <? code_point c)%N then None
          else lex (InStr (c :: acc)) rest
      | InNum n =>
          match digit_value c with
          | Some d =>
              if ((n =? 0) || (2 ^ 63 <=? 10 * n + d))%N then None
              else lex (InNum (10 * n + d)) rest
          | None =>
              match start c with
              | Some (ts, m') => option_map (fun r => Int n :: ts ++ r) (lex m' rest)
              | None => None
              end
          end
      | Idle =>
          match start c with
          | Some (ts, m') => option_map (app ts) (lex m' rest)
          | None => None
          end
      end
  end.

#[local] Set Warnings "-register-all".
Inductive value :=
| VStr (s : str)
| VInt (n : N)
| VObject (members : list (str * value)).

Fixpoint parse_value (fuel : nat) (ts : list token) : option (value * list token) :=
  match fuel with
  | O => None
  | S fuel' =>
      match ts with
      | Str s :: rest => Some (VStr s, rest)
      | Int n :: rest => Some (VInt n, rest)
      | LBrace :: RBrace :: rest => Some (VObject [], rest)
      | LBrace :: rest =>
          match parse_members fuel' rest with
          | Some (ms, rest') => Some (VObject ms, rest')
          | None => None
          end
      | _ => None
      end
  end
with parse_members (fuel : nat) (ts : list token)
    : option (list (str * value) * list token) :=
  match fuel with
  | O => None
  | S fuel' =>
      match ts with
      | Str k :: Colon :: rest =>
          match parse_value fuel' rest with
          | Some (v, Comma :: rest') =>
              match parse_members fuel' rest' with
              | Some (ms, rest'') => Some ((k, v) :: ms, rest'')
              | None => None
              end
          | Some (v, RBrace :: rest') => Some ([(k, v)], rest')
          | _ => None
          end
      | _ => None
      end
  end.

Fixpoint member (key : str) (ms : list (str * value)) : option value :=
  match ms with
  | [] => None
  | (k, v) :: rest => if String.eqb k key then Some v else member key rest
  end.

Fixpoint keys_distinct (ms : list (str * value)) : bool :=
  match ms with
  | [] => true
  | (k, _) :: rest =>
      match member k rest with
      | Some _ => false
      | None => keys_distinct rest
      end
  end.

(** No object repeats a member, and objects are nested at most [depth]
    deep. *)
Fixpoint strict (depth : nat) (v : value) : bool :=
  match v with
  | VObject ms =>
      match depth with
      | O => false
      | S d =>
          keys_distinct ms
          && (fix all (l : list (str * value)) : bool :=
                match l with
                | [] => true
                | (_, x) :: rest => strict d x && all rest
                end) ms
      end
  | VStr _ | VInt _ => true
  end.

Definition loads (data : bytes) : option value :=
  match lex Idle (map ascii_of_byte data) with
  | Some ts =>
      match parse_value (S (List.length ts)) ts with
      | Some (v, []) => if strict 2 v then Some v else None
      | _ => None
      end
  | None => None
  end.

Definition str_member (key : str) (ms : list (str * value)) : option str :=
  match member key ms with
  | Some (VStr s) => Some s
  | _ => None
  end.

Definition int_member (key : str) (ms : list (str * value)) : option Z :=
  match member key ms with
  | Some (VInt n) => Some (Z.of_N n)
  | _ => None
  end.

Definition two_digits (a b : ascii) : option N :=
  match digit_value a, digit_value b with
  | Some x, Some y => Some (10 * x + y)%N
  | _, _ => None
  end.

Definition four_digits (a b c d : ascii) : option N :=
  match two_digits a b, two_digits c d with
  | Some x, Some y => Some (100 * x + y)%N
  | _, _ => None
  end.

Definition parse_offset (cs : list ascii) : option (option Z) :=
  match cs with
  | [] => Some None
  | [z] => if Ascii.eqb z "Z" then Some (Some 0%Z) else None
  | [sign; h1; h2; colon; m1; m2] =>
      match two_digits h1 h2, two_digits m1 m2 with
      | Some h, Some m =>
          let secs := Z.of_N (3600 * h + 60 * m) in
          if negb (Ascii.eqb colon ":") || (24 <=? h)%N || (60 <=? m)%N then None
          else if Ascii.eqb sign "+" then Some (Some secs)
          else if Ascii.eqb sign "-" then Some (Some (- secs)%Z)
          else None
      | _, _ => None
      end
  | _ => None
  end.

Definition leap_year (y : N) : bool :=
  ((y mod 4 =? 0) && (negb (y mod 100 =? 0) || (y mod 400 =? 0)))%N.

Definition days_in_month (y m : N) : N :=
  if (m =? 2)%N then (if leap_year y then 29 else 28)%N
  else if ((m =? 4) || (m =? 6) || (m =? 9) || (m =? 11))%N then 30%N
  else 31%N.

Definition parse_datetime (s : str) : option datetime :=
  match list_ascii_of_string s with
  | y1 :: y2 :: y3 :: y4 :: d1 :: mo1 :: mo2 :: d2 :: da1 :: da2 :: t
      :: h1 :: h2 :: c1 :: mi1 :: mi2 :: c2 :: s1 :: s2 :: suffix =>
      match four_digits y1 y2 y3 y4, two_digits mo1 mo2, two_digits da1 da2,
            two_digits h1 h2, two_digits mi1 mi2, two_digits s1 s2,
            parse_offset suffix with
      | Some y, Some mo, Some da, Some h, Some mi, Some se, Some off =>
          if Ascii.eqb d1 "-" && Ascii.eqb d2 "-" && Ascii.eqb t "T"
             && Ascii.eqb c1 ":" && Ascii.eqb c2 ":"
             && (1 <=? y)%N && (1 <=? mo)%N && (mo <=? 12)%N
             && (1 <=? da)%N && (da <=? days_in_month y mo)%N
             && (h <? 24)%N && (mi <? 60)%N && (se <? 60)%N
          then Some {| year := y; month := mo; day := da;
                       hour := h; minute := mi; second := se; microsecond := 0;
                       utcoffset := off |}
          else None
      | _, _, _, _, _, _, _ => None
      end
  | _ => None
  end.

Definition validate_data (v : value) : option SMSReceivedData :=
  match v with
  | VObject ms =>
      match str_member "message" ms, str_member "receivedAt" ms,
            str_member "messageId" ms, str_member "phoneNumber" ms,
            int_member "simNumber" ms with
      | Some msg, Some at_, Some mid, Some phone, Some sim =>
          match parse_datetime at_ with
          | Some d =>
              Some {| message := msg; received_at := d; message_id := mid;
                      phone_number := phone; sim_number := sim |}
          | None => None
          end
      | _, _, _, _, _ => None
      end
  | _ => None
  end.

Definition validate (v : value) : option WebhookPayload :=
  match v with
  | VObject ms =>
      match str_member "deviceId" ms, str_member "event" ms, str_member "id" ms,
            str_member "webhookId" ms, member "payload" ms with
      | Some dev, Some ev, Some i, Some wid, Some data =>
          match validate_data data with
          | Some d =>
              if String.eqb ev "sms:received"
              then Some {| device_id := dev; event := ev; id_ := i;
                           webhook_id := wid; payload := d |}
              else None
          | None => None
          end
      | _, _, _, _, _ => None
      end
  | _ => None
  end.

Definition model_validate_json (data : bytes) : option WebhookPayload :=
  match loads data with
  | Some v => validate v
  | None => None
  end.

(** A body literal in which ['] stands for the double quote. *)
Definition json_literal (s : string) : bytes :=
  map (fun c => byte_of_ascii (if Ascii.eqb c "'" then quote else c))
      (list_ascii_of_string s).

End Wire.

(** ** Predicates used to state the properties *)

(** The X-Signature header equals the hex HMAC-SHA256, under [secret], of
    the raw body followed by the X-Timestamp header. *)
Definition signature_matches (secret : str) (request : Request) : bool :=
  match headers_get (headers request) "X-Signature",
        headers_get (headers request) "X-Timestamp" with
  | Some signature, Some timestamp =>
      String.eqb signature
        (hexdigest (hmac_new (encode secret) (body request ++ encode timestamp)))
  | _, _ => false
  end.

(** The exception a reply to the gateway call leads to, if any: a transport
    error when there is no response, [HTTPStatusError] for a status outside
    2xx. *)
Definition failure_of (reply : Reply) : option exception :=
  match reply with
  | NotSent | NoAnswer => Some TransportError
  | Answered response =>
      if ((200 <=? status_code response) && (status_code response <? 300))%Z
      then None
      else Some (HTTPStatusError (status_code response))
  end.

(** The username, the password and the callback URL are all present. *)
Definition credentials_present (settings : Settings) : bool :=
  match truthy (api_username settings),
        truthy (api_password settings),
        truthy (webhook_url settings) with
  | Some _, Some _, Some _ => true
  | _, _, _ => false
  end.

(** What the reply to the registration call yields: the id that
    [register_webhook] stores, or the exception it raises (no response, a
    status outside 2xx, a body that is not JSON, a JSON document that is not
    an object, an object without ["id"]). *)
Definition registered_id (reply : Reply) : option str :=
  match reply with
  | Answered response =>
      if ((200 <=? status_code response) && (status_code response <? 300))%Z
      then match response_json response with
           | Some (Object members) => getitem members "id"
           | Some NotAnObject | None => None
           end
      else None
  | NotSent | NoAnswer => None
  end.

Definition registration_error (reply : Reply) : option exception :=
  match reply with
  | NotSent | NoAnswer => Some TransportError
  | Answered response =>
      if ((200 <=? status_code response) && (status_code response <? 300))%Z
      then match response_json response with
           | None => Some JSONDecodeError
           | Some NotAnObject => Some TypeError
           | Some (Object members) =>
               match getitem members "id" with
               | None => Some (KeyError "id")
               | Some _ => None
               end
           end
      else Some (HTTPStatusError (status_code response))
  end.

(** The six responses the endpoint is seen to give. *)
Definition response_ok : HTTPResponse :=
  {| status := 200; content := JSONContent [("status", "ok")] |}.

Definition response_detail (code : Z) (detail : str) : HTTPResponse :=
  {| status := code; content := JSONContent [("detail", detail)] |}.

Definition response_server_error : HTTPResponse :=
  {| status := 500; content := TextContent "Internal Server Error" |}.

Definition possible_responses : list HTTPResponse :=
  [ response_ok;
    response_detail 401 "Missing signature header";
    response_detail 401 "Invalid signature";
    response_detail 400 "Invalid payload format";
    response_detail 400 "Invalid webhook ID";
    response_server_error ].

(** Strings of lowercase hexadecimal digits. *)
Definition lower_hex_char (c : ascii) : bool :=
  let n := code_point c in
  (((48 <=? n) && (n <=? 57)) || ((97 <=? n) && (n <=? 102)))%N.

Fixpoint lower_hex (s : str) : bool :=
  match s with
  | EmptyString => true
  | String c rest => lower_hex_char c && lower_hex rest
  end.

(** ** Sample traffic *)

Module Sample.

Definition body_for (wid : string) : bytes := Wire.json_literal
  ("{'deviceId': 'dev-1', 'event': 'sms:received', 'id': 'evt-1', 'webhookId': '"
   +++ wid +++
   "', 'payload': {'message': 'Hello', 'receivedAt': '2024-05-01T12:30:45Z', 'messageId': 'msg-1', 'phoneNumber': '+15550100', 'simNumber': 1}}").

Definition raw_body : bytes := body_for "wh_123".

Definition sms : SMSReceivedData := {|
  message := "Hello";
  received_at := {| year := 2024; month := 5; day := 1;
                    hour := 12; minute := 30; second := 45; microsecond := 0;
                    utcoffset := Some 0%Z |};
  message_id := "msg-1";
  phone_number := "+15550100";
  sim_number := 1
|}.

Definition parsed_for (wid : str) : WebhookPayload := {|
  device_id := "dev-1";
  event := "sms:received";
  id_ := "evt-1";
  webhook_id := wid;
  payload := sms
|}.

Definition parsed : WebhookPayload := parsed_for "wh_123".

(** Settings: nothing configured but the secret; the secret and the gateway
    account; the gateway account alone. *)
Definition secret_only : Settings := {|
  api_url := api_url default_settings;
  api_username := None;
  api_password := None;
  webhook_secret := Some "s3cret";
  webhook_url := None;
  ssl_cert := None;
  ssl_key := None
|}.

Definition full : Settings := {|
  api_url := "https://gateway.test/v1";
  api_username := Some "user";
  api_password := Some "pass";
  webhook_secret := Some "s3cret";
  webhook_url := Some "https://hook.test/webhook/sms-received";
  ssl_cert := None;
  ssl_key := None
|}.

Definition account_only : Settings := {|
  api_url := "https://gateway.test/v1";
  api_username := Some "user";
  api_password := Some "pass";
  webhook_secret := None;
  webhook_url := Some "https://hook.test/webhook/sms-received";
  ssl_cert := None;
  ssl_key := None
|}.

(** The process once the gateway has answered the registration with
    [{"id": "wh_123"}]. *)
Definition registered : World := {|
  app_state_webhook_id := Some "wh_123";
  stdout := ["Registered webhook with ID: wh_123"];
  outbound := [POST "https://gateway.test/v1/webhooks" ("user", "pass")
                 [("url", "https://hook.test/webhook/sms-received");
                  ("event", "sms:received")]]
|}.

Definition timestamp : str := "1714566645".

(** A request signed over [raw_body] and [timestamp] with the secret "s3cret". *)
Definition signed : Request := {|
  headers := [("content-type", "application/json");
              ("x-signature", "9d7a14c8ef16988de2ca08f8992fcda521c1ce744962ab18ee4e0644fdb0c670");
              ("x-timestamp", timestamp)];
  body := raw_body
|}.

(** The same body without the two headers. *)
Definition bare : Request := {|
  headers := [("content-type", "application/json")];
  body := raw_body
|}.

(** A request whose X-Timestamp header is present with an empty value and
    whose signature is the HMAC of the body followed by that empty value. *)
Definition empty_timestamp : Request := {|
  headers := [("x-signature", "d502dc1030edf97c117000977b3b0e3e4e54f6595f1785f7ff02dcedd7eaa91e");
              ("x-timestamp", EmptyString)];
  body := raw_body
|}.

(** A request for another webhook, correctly signed. *)
Definition other_webhook : Request := {|
  headers := [("x-signature", "794fb88172d29a9f4d87b5e25858139028431681f389bf31042cc57326f1e272");
              ("x-timestamp", timestamp)];
  body := body_for "wh_999"
|}.

(** The signature of [signed] over a body that was replaced. *)
Definition tampered : Request := {|
  headers := headers signed;
  body := bytes_literal "not json"
|}.

(** A request whose X-Signature value is the single byte 0xE9. *)
Definition latin1_signature : Request := {|
  headers := [("x-signature", String (ascii_of_N 233) EmptyString);
              ("x-timestamp", timestamp)];
  body := raw_body
|}.

(** Gateways: one that accepts both calls, one that accepts the registration
    and answers the unregistration with 500, one to which no connection can
    be made. *)
Definition accepting : Gateway := fun call =>
  match call with
  | POST _ _ _ =>
      Answered {| status_code := 201;
                  response_json := Some (Object [("id", "wh_123")]) |}
  | DELETE _ _ => Answered {| status_code := 200; response_json := None |}
  end.

Definition failing_delete : Gateway := fun call =>
  match call with
  | POST _ _ _ =>
      Answered {| status_code := 201;
                  response_json := Some (Object [("id", "wh_123")]) |}
  | DELETE _ _ => Answered {| status_code := 500; response_json := None |}
  end.

Definition unreachable : Gateway := fun _ => NotSent.

End Sample.

(** Further sample data: settings with TLS paths, and two requests that
    differ by where the body ends and the timestamp begins. *)
Module More.

Definition tls : Settings := {|
  api_url := api_url default_settings;
  api_username := None;
  api_password := None;
  webhook_secret := None;
  webhook_url := None;
  ssl_cert := Some "/etc/ssl/hook.pem";
  ssl_key := Some "/etc/ssl/hook.key"
|}.

Definition certificate_only : Settings := {|
  api_url := api_url default_settings;
  api_username := None;
  api_password := None;
  webhook_secret := None;
  webhook_url := None;
  ssl_cert := Some "/etc/ssl/hook.pem";
  ssl_key := None
|}.

Definition long_body : Request := {|
  headers := [("x-signature", "00"); ("x-timestamp", "66645")];
  body := bytes_literal "payload17145"
|}.

Definition short_body : Request := {|
  headers := [("x-signature", "00"); ("x-timestamp", "1714566645")];
  body := bytes_literal "payload"
|}.

(** A request carrying a signature that is not a digest. *)
Definition short_signature : Request := {|
  headers := [("x-signature", "9D7A14C8"); ("x-timestamp", Sample.timestamp)];
  body := Sample.raw_body
|}.

(** Gateways whose registration reply has no id, or is a JSON array; a
    gateway that takes the request and never answers. *)
Definition without_id : Gateway := fun call =>
  match call with
  | POST _ _ _ =>
      Answered {| status_code := 200;
                  response_json := Some (Object [("ok", "true")]) |}
  | DELETE _ _ => Answered {| status_code := 200; response_json := None |}
  end.

Definition answering_array : Gateway := fun call =>
  match call with
  | POST _ _ _ => Answered {| status_code := 200; response_json := Some NotAnObject |}
  | DELETE _ _ => Answered {| status_code := 200; response_json := None |}
  end.

Definition silent : Gateway := fun _ => NoAnswer.

End More.

(** * Properties *)

Arguments hmac_new : simpl never.
Arguments hexdigest : simpl never.
Arguments str_of_int : simpl never.
Arguments str_of_datetime : simpl never.

(** ** The library functions on published vectors *)

Example round_constants :
  List.length SHA256.K = 64
  /\ firstn 4 SHA256.K = [0x428a2f98; 0x71374491; 0xb5c0fbcf; 0xe9b5dba5]%N
  /\ skipn 62 SHA256.K = [0xbef9a3f7; 0xc67178f2]%N
  /\ snd SHA256.H0 = 0x5be0cd19%N.
Proof. vm_compute. repeat split. Qed.

Example sha256_abc :
  hexdigest (SHA256.sha256 (bytes_literal "abc"))
  = "ba7816bf8f01cfea414140de5dae2223b00361a396177a9cb410ff61f20015ad".
Proof. vm_compute. reflexivity. Qed.

Example sha256_two_blocks :
  hexdigest (SHA256.sha256
    (bytes_literal "abcdbcdecdefdefgefghfghighijhijkijkljklmklmnlmnomnopnopq"))
  = "248d6a61d20638b8e5c026930c3e6039a33ce45964ff2167f6ecedd419db06c1".
Proof. vm_compute. reflexivity. Qed.

Example hmac_rfc4231_case_2 :
  hexdigest (hmac_new (bytes_literal "Jefe") (bytes_literal "what do ya want for nothing?"))
  = "5bdcc146bf60754e6a042426089575c75a003f089d2739839dec58b964ec3843".
Proof. vm_compute. reflexivity. Qed.

Example encode_e_acute : encode (String (ascii_of_N 233) "a") = [xc3; xa9; x61].
Proof. reflexivity. Qed.

Example datetime_printed :
  str_of_datetime {| year := 2024; month := 5; day := 1; hour := 12; minute := 30;
                     second := 45; microsecond := 42; utcoffset := Some (-19800)%Z |}
  = "2024-05-01 12:30:45.000042-05:30".
Proof. vm_compute. reflexivity. Qed.

Example sample_body_validates :
  Wire.model_validate_json Sample.raw_body = Some Sample.parsed.
Proof. vm_compute. reflexivity. Qed.

Example decoder_rejections :
  Wire.loads (Wire.json_literal "{'a': 01}") = None
  /\ Wire.loads (Wire.json_literal "{'a': 1, 'a': 2}") = None
  /\ Wire.loads (Wire.json_literal "{'a': {'b': {'c': 1}}}") = None
  /\ Wire.loads (xc3 :: xa9 :: nil) = None
  /\ Wire.parse_datetime "2024-02-31T00:00:00Z" = None
  /\ Wire.parse_datetime "2023-02-29T00:00:00Z" = None
  /\ Wire.parse_datetime "2024-02-29T00:00:00Z" <> None.
Proof. vm_compute. repeat split. discriminate. Qed.

Example truncated_body_rejected :
  Wire.model_validate_json (firstn 40 Sample.raw_body) = None.
Proof. vm_compute. reflexivity. Qed.

(** ** Truthiness, digests and the comparison *)

Lemma truthy_nonempty (s : str) : s <> EmptyString -> truthy (Some s) = Some s.
Proof. destruct s; [contradiction | reflexivity]. Qed.

Lemma truthy_inv (x : option str) (s : str) :
  truthy x = Some s -> x = Some s /\ s <> EmptyString.
Proof.
  destruct x as [[|c t]|]; simpl; intros H; try discriminate.
  injection H as <-. split; [reflexivity | discriminate].
Qed.

Lemma truthy_None_inv (x : option str) :
  truthy x = None -> x = None \/ x = Some EmptyString.
Proof. destruct x as [[|c t]|]; simpl; intros H; try discriminate; auto. Qed.

Lemma hex_digits_ascii (b : byte) :
  ((code_point (hex_digit (Byte.to_N b / 16)) <? 128)
   && (code_point (hex_digit (Byte.to_N b mod 16)) <? 128))%N = true.
Proof. destruct b; vm_compute; reflexivity. Qed.

Lemma hexdigest_cons (b : byte) (rest : bytes) :
  hexdigest (b :: rest)
  = String (hex_digit (Byte.to_N b / 16))
      (String (hex_digit (Byte.to_N b mod 16)) (hexdigest rest)).
Proof. reflexivity. Qed.

Lemma isascii_hexdigest (d : bytes) : isascii (hexdigest d) = true.
Proof.
  induction d as [|b rest IH]; [reflexivity|].
  rewrite hexdigest_cons. cbn [isascii]. rewrite IH, andb_true_r.
  apply hex_digits_ascii.
Qed.

Lemma sha256_not_nil (msg : bytes) : exists b rest, SHA256.sha256 msg = b :: rest.
Proof.
  unfold SHA256.sha256.
  destruct (fold_left _ _ _) as [[[[[[[a b] c] d] e] f] g] h].
  cbn. eauto.
Qed.

Lemma hexdigest_hmac_nonempty (key msg : bytes) :
  hexdigest (hmac_new key msg) <> EmptyString.
Proof.
  unfold hmac_new.
  destruct (sha256_not_nil
    (map (xor_byte 92) (hmac_key_block key)
     ++ SHA256.sha256 (map (xor_byte 54) (hmac_key_block key) ++ msg)))
    as (b & rest & ->).
  rewrite hexdigest_cons. discriminate.
Qed.

Lemma compare_digest_hexdigest (a : str) (d : bytes) :
  isascii a = true ->
  compare_digest a (hexdigest d) = Some (String.eqb a (hexdigest d)).
Proof.
  intros Ha. unfold compare_digest. rewrite Ha, isascii_hexdigest. reflexivity.
Qed.

Lemma compare_digest_non_ascii (a b : str) :
  isascii a = false -> compare_digest a b = None.
Proof. intros Ha. unfold compare_digest. rewrite Ha. reflexivity. Qed.

Lemma printed_printed (w : World) (l1 l2 : list str) :
  printed (printed w l1) l2 = printed w (l1 ++ l2).
Proof. unfold printed. cbn. rewrite <- app_assoc. reflexivity. Qed.

(** ** The signature block *)

Section Verification.

Variable settings : Settings.
Variable request : Request.
Variable w : World.

Lemma verify_signature_skipped :
  truthy (webhook_secret settings) = None ->
  verify_signature settings request w = (w, inr tt).
Proof. intros H. unfold verify_signature. rewrite H. reflexivity. Qed.

Lemma verify_signature_missing (secret : str) :
  truthy (webhook_secret settings) = Some secret ->
  truthy (headers_get (headers request) "X-Signature") = None
  \/ truthy (headers_get (headers request) "X-Timestamp") = None ->
  verify_signature settings request w
  = (w, inl (HTTPException 401 "Missing signature header")).
Proof.
  intros Hs H. unfold verify_signature. rewrite Hs.
  destruct H as [H|H]; rewrite H;
    [|destruct (truthy (headers_get (headers request) "X-Signature"))];
    reflexivity.
Qed.

Lemma verify_signature_compared (secret signature timestamp : str) :
  truthy (webhook_secret settings) = Some secret ->
  truthy (headers_get (headers request) "X-Signature") = Some signature ->
  truthy (headers_get (headers request) "X-Timestamp") = Some timestamp ->
  isascii signature = true ->
  verify_signature settings request w
  = (w, if String.eqb signature
             (hexdigest (hmac_new (encode secret) (body request ++ encode timestamp)))
        then inr tt
        else inl (HTTPException 401 "Invalid signature")).
Proof.
  intros Hs Hsig Hts Hascii. unfold verify_signature. rewrite Hs.
  rewrite Hsig, Hts.
  cbv zeta. unfold bind. rewrite (compare_digest_hexdigest _ _ Hascii).
  cbn [or_raise ret].
  destruct (String.eqb signature _); reflexivity.
Qed.

Lemma verify_signature_non_ascii (secret signature timestamp : str) :
  truthy (webhook_secret settings) = Some secret ->
  truthy (headers_get (headers request) "X-Signature") = Some signature ->
  truthy (headers_get (headers request) "X-Timestamp") = Some timestamp ->
  isascii signature = false ->
  verify_signature settings request w = (w, inl TypeError).
Proof.
  intros Hs Hsig Hts Hascii. unfold verify_signature. rewrite Hs.
  rewrite Hsig, Hts.
  cbv zeta. unfold bind. rewrite (compare_digest_non_ascii _ _ Hascii).
  reflexivity.
Qed.

(** A signature equal to the digest, next to a non-empty timestamp, passes. *)
Lemma verify_signature_accepts (secret : str) :
  truthy (webhook_secret settings) = Some secret ->
  signature_matches secret request = true ->
  headers_get (headers request) "X-Timestamp" <> Some EmptyString ->
  verify_signature settings request w = (w, inr tt).
Proof.
  intros Hs Hm Hne. unfold signature_matches in Hm.
  destruct (headers_get (headers request) "X-Signature") as [signature|] eqn:Hsig;
    [|discriminate].
  destruct (headers_get (headers request) "X-Timestamp") as [timestamp|] eqn:Hts;
    [|discriminate].
  apply String.eqb_eq in Hm.
  assert (Ht : timestamp <> EmptyString) by (intros ->; apply Hne; reflexivity).
  rewrite (verify_signature_compared secret signature timestamp); auto.
  - rewrite Hm, String.eqb_refl. reflexivity.
  - rewrite Hsig, Hm. apply truthy_nonempty, hexdigest_hmac_nonempty.
  - rewrite Hts. apply truthy_nonempty, Ht.
  - rewrite Hm. apply isascii_hexdigest.
Qed.

(** The block never prints, calls the gateway or touches [app.state]. *)
Lemma verify_signature_world : fst (verify_signature settings request w) = w.
Proof.
  unfold verify_signature.
  destruct (truthy (webhook_secret settings)); [|reflexivity].
  destruct (truthy (headers_get _ "X-Signature")); [|reflexivity].
  destruct (truthy (headers_get _ "X-Timestamp")); [|reflexivity].
  cbv zeta. unfold bind.
  destruct (compare_digest _ _) as [[|]|]; reflexivity.
Qed.

(** Its outcomes: it passes, or raises 401 or [TypeError]. *)
Lemma verify_signature_outcome :
  snd (verify_signature settings request w) = inr tt
  \/ (exists detail, snd (verify_signature settings request w)
                     = inl (HTTPException 401 detail))
  \/ snd (verify_signature settings request w) = inl TypeError.
Proof.
  unfold verify_signature.
  destruct (truthy (webhook_secret settings)); [|left; reflexivity].
  destruct (truthy (headers_get _ "X-Signature")); [|right; left; eexists; reflexivity].
  destruct (truthy (headers_get _ "X-Timestamp")); [|right; left; eexists; reflexivity].
  cbv zeta. unfold bind.
  destruct (compare_digest _ _) as [[|]|]; cbn.
  - left; reflexivity.
  - right; left; eexists; reflexivity.
  - right; right; reflexivity.
Qed.

End Verification.

(** ** The handler after the signature block *)

Section Handler.

Variable settings : Settings.
Variable validate : bytes -> option WebhookPayload.
Variable request : Request.
Variable w : World.

Lemma handler_stopped_by_verification (e : exception) :
  snd (verify_signature settings request w) = inl e ->
  handle_sms_webhook settings validate request w = (w, inl e).
Proof.
  intros H. unfold handle_sms_webhook, bind.
  pose proof (verify_signature_world settings request w) as Hw.
  destruct (verify_signature settings request w) as [w' r]. cbn in *.
  subst. reflexivity.
Qed.

Lemma handler_after_verification :
  snd (verify_signature settings request w) = inr tt ->
  handle_sms_webhook settings validate request w
  = match validate (body request) with
    | None => (w, inl (HTTPException 400 "Invalid payload format"))
    | Some p =>
        match app_state_webhook_id w with
        | None => (w, inl (AttributeError "webhook_id"))
        | Some registered =>
            if String.eqb (webhook_id p) registered
            then (printed w (received_lines p), inr [("status", "ok")])
            else (w, inl (HTTPException 400 "Invalid webhook ID"))
        end
    end.
Proof.
  intros H. unfold handle_sms_webhook, bind.
  pose proof (verify_signature_world settings request w) as Hw.
  destruct (verify_signature settings request w) as [w' r]. cbn in *.
  subst. destruct (validate (body request)) as [p|]; [|reflexivity].
  cbn. unfold getattr_webhook_id.
  destruct (app_state_webhook_id w) as [registered|]; [|reflexivity].
  destruct (String.eqb (webhook_id p) registered); [|reflexivity].
  cbn. unfold print, ret. rewrite !printed_printed. reflexivity.
Qed.

(** A request that the handler accepts leaves [app.state] and the record of
    outbound calls as they were. *)
Lemma handler_accepts (p : WebhookPayload) :
  snd (verify_signature settings request w) = inr tt ->
  validate (body request) = Some p ->
  app_state_webhook_id w = Some (webhook_id p) ->
  handle_sms_webhook settings validate request w
  = (printed w (received_lines p), inr [("status", "ok")]).
Proof.
  intros Hv Hp Hid. rewrite (handler_after_verification Hv), Hp, Hid.
  rewrite String.eqb_refl. reflexivity.
Qed.

Lemma post_accepts (p : WebhookPayload) :
  snd (verify_signature settings request w) = inr tt ->
  validate (body request) = Some p ->
  app_state_webhook_id w = Some (webhook_id p) ->
  post_sms_received settings validate request w
  = (printed w (received_lines p),
     {| status := 200; content := JSONContent [("status", "ok")] |}).
Proof.
  intros Hv Hp Hid. unfold post_sms_received.
  rewrite (handler_accepts p Hv Hp Hid). reflexivity.
Qed.

End Handler.

(** The premise shared by the acceptance properties: when a secret is
    configured, the signature matches and the timestamp is not empty. *)
Lemma signed_request_verifies (settings : Settings) (request : Request) (w : World) :
  (forall secret, truthy (webhook_secret settings) = Some secret ->
     signature_matches secret request = true
     /\ headers_get (headers request) "X-Timestamp" <> Some EmptyString) ->
  snd (verify_signature settings request w) = inr tt.
Proof.
  intros H. destruct (truthy (webhook_secret settings)) as [secret|] eqn:Hs.
  - destruct (H secret eq_refl) as [Hm Hne].
    rewrite (verify_signature_accepts settings request w secret); auto.
  - rewrite verify_signature_skipped; auto.
Qed.

Lemma credentials_present_true (settings : Settings) :
  credentials_present settings = true <->
  exists username password url,
    truthy (api_username settings) = Some username
    /\ truthy (api_password settings) = Some password
    /\ truthy (webhook_url settings) = Some url.
Proof.
  unfold credentials_present. split.
  - destruct (truthy (api_username settings)) as [u|]; [|discriminate].
    destruct (truthy (api_password settings)) as [p|]; [|discriminate].
    destruct (truthy (webhook_url settings)) as [url|]; [|discriminate].
    intros _. exists u, p, url. auto.
  - intros (u & p & url & -> & -> & ->). reflexivity.
Qed.

Lemma register_webhook_skipped (settings : Settings) (gateway : Gateway) (w : World) :
  credentials_present settings = false ->
  register_webhook settings gateway w = (w, inr tt).
Proof.
  unfold credentials_present, register_webhook.
  destruct (truthy (api_username settings)); [|reflexivity].
  destruct (truthy (api_password settings)); [|reflexivity].
  destruct (truthy (webhook_url settings)); [discriminate|reflexivity].
Qed.

Lemma unregister_webhook_skipped (settings : Settings) (gateway : Gateway) (w : World) :
  credentials_present settings = false ->
  unregister_webhook settings gateway w = (w, inr tt).
Proof.
  unfold credentials_present, unregister_webhook, bind, hasattr_webhook_id.
  destruct (truthy (api_username settings)); [|reflexivity].
  destruct (truthy (api_password settings)); [|reflexivity].
  destruct (truthy (webhook_url settings)); [discriminate|reflexivity].
Qed.

(** With the three settings present the registration is attempted: the POST
    leaves the process whenever a connection can be made, whatever the
    gateway answers. *)
Lemma register_webhook_calls_gateway (settings : Settings) (gateway : Gateway)
    (w : World) (username password url : str) :
  truthy (api_username settings) = Some username ->
  truthy (api_password settings) = Some password ->
  truthy (webhook_url settings) = Some url ->
  gateway (POST (api_url settings +++ "/webhooks") (username, password)
                [("url", url); ("event", "sms:received")]) <> NotSent ->
  outbound (fst (register_webhook settings gateway w))
  = outbound w ++ [POST (api_url settings +++ "/webhooks") (username, password)
                        [("url", url); ("event", "sms:received")]].
Proof.
  intros Hu Hp Hurl Hsent. unfold register_webhook, bind, send.
  rewrite Hu, Hp, Hurl.
  destruct (gateway _) as [response| |]; [|contradiction|reflexivity].
  unfold raise_for_status.
  destruct (_ && _)%bool; [|reflexivity].
  cbn. destruct (response_json response) as [[members|]|]; try reflexivity.
  cbn. destruct (getitem members "id"); reflexivity.
Qed.

(** The two rejections of the signature block, seen from the handler. *)
Lemma mismatched_signature_rejected (settings : Settings)
    (validate : bytes -> option WebhookPayload) (request : Request) (w : World)
    (secret signature timestamp : str) :
  truthy (webhook_secret settings) = Some secret ->
  truthy (headers_get (headers request) "X-Signature") = Some signature ->
  truthy (headers_get (headers request) "X-Timestamp") = Some timestamp ->
  isascii signature = true ->
  signature <> hexdigest (hmac_new (encode secret) (body request ++ encode timestamp)) ->
  handle_sms_webhook settings validate request w
  = (w, inl (HTTPException 401 "Invalid signature")).
Proof.
  intros Hs Hsig Hts Ha Hne.
  apply handler_stopped_by_verification.
  rewrite (verify_signature_compared settings request w secret signature timestamp);
    auto.
  apply String.eqb_neq in Hne. rewrite Hne. reflexivity.
Qed.

Lemma missing_signature_rejected (settings : Settings)
    (validate : bytes -> option WebhookPayload) (request : Request) (w : World)
    (secret : str) :
  truthy (webhook_secret settings) = Some secret ->
  truthy (headers_get (headers request) "X-Signature") = None
  \/ truthy (headers_get (headers request) "X-Timestamp") = None ->
  handle_sms_webhook settings validate request w
  = (w, inl (HTTPException 401 "Missing signature header")).
Proof.
  intros Hs Hm. apply handler_stopped_by_verification.
  rewrite (verify_signature_missing settings request w secret); auto.
Qed.

(** Without a registered id the comparison of line 138 is not reached as a
    comparison: reading [app.state.webhook_id] raises. *)
Example unregistered_valid_request_raises :
  handle_sms_webhook default_settings Wire.model_validate_json Sample.bare initial_world
  = (initial_world, inl (AttributeError "webhook_id")).
Proof. vm_compute. reflexivity. Qed.

(** ** The lifecycle on the sample gateway *)

Example startup_registers :
  register_webhook Sample.full Sample.accepting initial_world
  = (Sample.registered, inr tt).
Proof. vm_compute. reflexivity. Qed.

Example shutdown_unregisters :
  unregister_webhook Sample.full Sample.accepting Sample.registered
  = (printed
       (called Sample.registered
          [DELETE "https://gateway.test/v1/webhooks/wh_123" ("user", "pass")])
       ["Unregistered webhook ID: wh_123"],
     inr tt).
Proof. vm_compute. reflexivity. Qed.

Example unreachable_gateway_stops_startup :
  lifespan Sample.full Sample.unreachable (ret tt) initial_world
  = (initial_world, inl TransportError).
Proof. vm_compute. reflexivity. Qed.

Example silent_gateway_stops_startup :
  lifespan Sample.full More.silent (ret tt) initial_world
  = (called initial_world
       [POST "https://gateway.test/v1/webhooks" ("user", "pass")
             [("url", "https://hook.test/webhook/sms-received");
              ("event", "sms:received")]],
     inl TransportError).
Proof. vm_compute. reflexivity. Qed.

(** * Properties of the specification *)

(** ** C1 *)

(** C1, as stated, fails on a request whose X-Timestamp header is present
    with an empty value: the body is schema-valid, its webhookId is the
    registered one, the X-Signature header is the hex HMAC-SHA256 of the body
    followed by that (empty) header value, and the answer is 401. *)
Lemma matching_signature_over_empty_timestamp_rejected :
  Wire.model_validate_json (body Sample.empty_timestamp) = Some Sample.parsed
  /\ app_state_webhook_id Sample.registered = Some (webhook_id Sample.parsed)
  /\ truthy (webhook_secret Sample.full) = Some "s3cret"
  /\ signature_matches "s3cret" Sample.empty_timestamp = true
  /\ post_sms_received Sample.full Wire.model_validate_json
       Sample.empty_timestamp Sample.registered
     = (Sample.registered,
        {| status := 401;
           content := JSONContent [("detail", "Missing signature header")] |}).
Proof. vm_compute. repeat split. Qed.

(** C1 (amended).  For every request whose body is a schema-valid payload
    whose webhookId equals the registered webhook id and, when a shared
    secret is configured, whose X-Signature header equals the hex HMAC-SHA256
    of the raw body followed by the X-Timestamp header under that secret,
    that header being non-empty, the handler answers 200 with body
    {"status": "ok"} and prints the lines of the nested SMS record (SIM
    number, phone number, message, received-at) exactly once. *)
Theorem valid_request_accepted :
  forall (validate : bytes -> option WebhookPayload) (settings : Settings)
         (request : Request) (w : World) (p : WebhookPayload),
    validate (body request) = Some p ->
    app_state_webhook_id w = Some (webhook_id p) ->
    (forall secret, truthy (webhook_secret settings) = Some secret ->
       signature_matches secret request = true
       /\ headers_get (headers request) "X-Timestamp" <> Some EmptyString) ->
    post_sms_received settings validate request w
    = (printed w (received_lines p),
       {| status := 200; content := JSONContent [("status", "ok")] |}).
Proof.
  intros validate settings request w p Hp Hid Hsig.
  apply post_accepts; auto using signed_request_verifies.
Qed.

Lemma valid_request_accepted_sample :
  post_sms_received Sample.full Wire.model_validate_json Sample.signed Sample.registered
  = (printed Sample.registered
       ["Received SMS:"; "SIM: 1"; "From: +15550100"; "Message: Hello";
        "Received at: 2024-05-01 12:30:45+00:00"],
     {| status := 200; content := JSONContent [("status", "ok")] |}).
Proof.
  apply (valid_request_accepted Wire.model_validate_json Sample.full
           Sample.signed Sample.registered Sample.parsed).
  - vm_compute. reflexivity.
  - reflexivity.
  - intros secret H. vm_compute in H. injection H as <-.
    split; [vm_compute; reflexivity | vm_compute; discriminate].
Defined.

(** ** C2 *)

(** With nothing registered no request is accepted; what each stage answers
    is as in the registered case up to the read of [app.state]. *)
Lemma unregistered_never_accepts :
  forall (settings : Settings) (gateway : Gateway)
         (validate : bytes -> option WebhookPayload)
         (request : Request) (w : World),
    credentials_present settings = false ->
    app_state_webhook_id w = None ->
    register_webhook settings gateway w = (w, inr tt)
    /\ status (snd (post_sms_received settings validate request w)) <> 200%Z
    /\ (forall secret,
          truthy (webhook_secret settings) = Some secret ->
          truthy (headers_get (headers request) "X-Signature") = None
          \/ truthy (headers_get (headers request) "X-Timestamp") = None ->
          status (snd (post_sms_received settings validate request w)) = 401%Z)
    /\ (snd (verify_signature settings request w) = inr tt ->
        validate (body request) = None ->
        status (snd (post_sms_received settings validate request w)) = 400%Z).
Proof.
  intros settings gateway validate request w Hc Hw.
  split; [apply register_webhook_skipped, Hc|].
  unfold post_sms_received. split; [|split].
  - destruct (verify_signature_outcome settings request w) as [Hv|[[detail Hv]|Hv]].
    + rewrite (handler_after_verification settings validate request w Hv), Hw.
      destruct (validate (body request)); cbn; discriminate.
    + rewrite (handler_stopped_by_verification settings validate request w _ Hv).
      cbn. discriminate.
    + rewrite (handler_stopped_by_verification settings validate request w _ Hv).
      cbn. discriminate.
  - intros secret Hs Hm.
    rewrite (missing_signature_rejected settings validate request w secret Hs Hm).
    reflexivity.
  - intros Hv Hp.
    rewrite (handler_after_verification settings validate request w Hv), Hp.
    reflexivity.
Qed.

(** C2.  If no webhook was ever registered, a request that reaches the
    webhook-id check should fail it and be rejected with 400.  The code does
    not get that far: for every request that passes the signature block with
    a body that validates, reading [app.state.webhook_id] at line 138 raises
    [AttributeError], no [HTTPException] is raised, and the answer is 500. *)
Theorem unregistered_valid_request_answered_500 :
  forall (settings : Settings) (validate : bytes -> option WebhookPayload)
         (request : Request) (w : World) (p : WebhookPayload),
    app_state_webhook_id w = None ->
    snd (verify_signature settings request w) = inr tt ->
    validate (body request) = Some p ->
    handle_sms_webhook settings validate request w
    = (w, inl (AttributeError "webhook_id"))
    /\ post_sms_received settings validate request w
       = (w, {| status := 500; content := TextContent "Internal Server Error" |}).
Proof.
  intros settings validate request w p Hid Hv Hp.
  unfold post_sms_received.
  rewrite (handler_after_verification settings validate request w Hv), Hp, Hid.
  split; reflexivity.
Qed.

Lemma unregistered_valid_request_answered_500_sample :
  register_webhook default_settings Sample.unreachable initial_world
  = (initial_world, inr tt)
  /\ handle_sms_webhook default_settings Wire.model_validate_json Sample.bare
       initial_world
     = (initial_world, inl (AttributeError "webhook_id"))
  /\ post_sms_received default_settings Wire.model_validate_json Sample.bare
       initial_world
     = (initial_world,
        {| status := 500; content := TextContent "Internal Server Error" |}).
Proof.
  split; [reflexivity|].
  apply (unregistered_valid_request_answered_500 default_settings
           Wire.model_validate_json Sample.bare initial_world Sample.parsed).
  - reflexivity.
  - reflexivity.
  - vm_compute. reflexivity.
Defined.

(** ** The exit of [lifespan] when the unregistration fails *)


(** The application itself does not catch the failure: with a gateway that
    accepts the registration and answers the DELETE with 500, the exit of
    [lifespan] ends with [HTTPStatusError], and the program has printed
    nothing after the registration line. *)
Example failed_unregistration_leaves_lifespan :
  lifespan Sample.full Sample.failing_delete (ret tt) initial_world
  = ({| app_state_webhook_id := Some "wh_123";
        stdout := ["Registered webhook with ID: wh_123"];
        outbound :=
          [POST "https://gateway.test/v1/webhooks" ("user", "pass")
                [("url", "https://hook.test/webhook/sms-received");
                 ("event", "sms:received")];
           DELETE "https://gateway.test/v1/webhooks/wh_123" ("user", "pass")] |},
     inl (HTTPStatusError 500)).
Proof. vm_compute. reflexivity. Qed.

(** ** C4 *)

(** After a passed signature block no answer is a 401. *)
Lemma verified_request_not_401 (settings : Settings)
    (validate : bytes -> option WebhookPayload) (request : Request) (w : World) :
  snd (verify_signature settings request w) = inr tt ->
  status (snd (post_sms_received settings validate request w)) <> 401%Z.
Proof.
  intros Hv. unfold post_sms_received.
  rewrite (handler_after_verification settings validate request w Hv).
  destruct (validate (body request)) as [p|]; [|cbn; discriminate].
  destruct (app_state_webhook_id w) as [registered|]; [|cbn; discriminate].
  destruct (String.eqb (webhook_id p) registered); cbn; discriminate.
Qed.

(** C4, as stated, fails on a request that carries both headers, the
    X-Timestamp one with an empty value: the X-Signature value equals the hex
    digest computed over the body and that timestamp, and the answer is 401
    all the same. *)
Lemma present_empty_timestamp_treated_as_missing :
  truthy (webhook_secret Sample.full) = Some "s3cret"
  /\ headers_get (headers Sample.empty_timestamp) "X-Timestamp" = Some EmptyString
  /\ headers_get (headers Sample.empty_timestamp) "X-Signature"
     = Some (hexdigest (hmac_new (encode "s3cret")
                          (body Sample.empty_timestamp ++ encode EmptyString)))
  /\ handle_sms_webhook Sample.full Wire.model_validate_json
       Sample.empty_timestamp Sample.registered
     = (Sample.registered, inl (HTTPException 401 "Missing signature header")).
Proof. vm_compute. repeat split. Qed.

(** C4 (amended).  When a (non-empty) shared secret is configured: every
    request whose X-Signature or X-Timestamp header is missing or empty is
    answered 401; otherwise, for an X-Signature value made of ASCII
    characters, the handler computes HMAC-SHA256 with the UTF-8 secret as key
    over the raw body followed by the UTF-8 timestamp, hex-encodes the digest,
    compares it with the X-Signature value, and answers 401 exactly when they
    differ. *)
Theorem signature_checked_when_secret_configured :
  forall (settings : Settings) (validate : bytes -> option WebhookPayload)
         (request : Request) (w : World) (secret : str),
    truthy (webhook_secret settings) = Some secret ->
    (truthy (headers_get (headers request) "X-Signature") = None
     \/ truthy (headers_get (headers request) "X-Timestamp") = None ->
     post_sms_received settings validate request w
     = (w, {| status := 401;
              content := JSONContent [("detail", "Missing signature header")] |}))
    /\ (forall signature timestamp,
          truthy (headers_get (headers request) "X-Signature") = Some signature ->
          truthy (headers_get (headers request) "X-Timestamp") = Some timestamp ->
          isascii signature = true ->
          (status (snd (post_sms_received settings validate request w)) = 401%Z
           <-> signature
               <> hexdigest (hmac_new (encode secret)
                               (body request ++ encode timestamp)))).
Proof.
  intros settings validate request w secret Hs. split.
  - intros Hm. unfold post_sms_received.
    rewrite (missing_signature_rejected settings validate request w secret Hs Hm).
    reflexivity.
  - intros signature timestamp Hsig Hts Ha. split.
    + intros H401 Heq.
      apply (verified_request_not_401 settings validate request w); [|exact H401].
      rewrite (verify_signature_compared settings request w secret signature timestamp);
        auto.
      rewrite Heq, String.eqb_refl. reflexivity.
    + intros Hne. unfold post_sms_received.
      rewrite (mismatched_signature_rejected settings validate request w
                 secret signature timestamp Hs Hsig Hts Ha Hne).
      reflexivity.
Qed.

Lemma signature_checked_when_secret_configured_sample :
  post_sms_received Sample.full Wire.model_validate_json Sample.bare Sample.registered
  = (Sample.registered,
     {| status := 401;
        content := JSONContent [("detail", "Missing signature header")] |})
  /\ status (snd (post_sms_received Sample.full Wire.model_validate_json
                    Sample.tampered Sample.registered)) = 401%Z
  /\ status (snd (post_sms_received Sample.full Wire.model_validate_json
                    Sample.signed Sample.registered)) <> 401%Z.
Proof.
  split; [|split].
  - apply (signature_checked_when_secret_configured Sample.full
             Wire.model_validate_json Sample.bare Sample.registered "s3cret");
      [reflexivity | left; reflexivity].
  - destruct (signature_checked_when_secret_configured Sample.full
                Wire.model_validate_json Sample.tampered Sample.registered
                "s3cret" eq_refl) as [_ H].
    apply (H "9d7a14c8ef16988de2ca08f8992fcda521c1ce744962ab18ee4e0644fdb0c670"
             Sample.timestamp); try reflexivity.
    apply String.eqb_neq. vm_compute. reflexivity.
  - destruct (signature_checked_when_secret_configured Sample.full
                Wire.model_validate_json Sample.signed Sample.registered
                "s3cret" eq_refl) as [_ H].
    intros H401.
    apply (H "9d7a14c8ef16988de2ca08f8992fcda521c1ce744962ab18ee4e0644fdb0c670"
             Sample.timestamp) in H401; try reflexivity.
    apply H401. vm_compute. reflexivity.
Defined.

(** ** C5 *)

(** C5 at a request whose X-Signature value is the byte 0xE9: the header does
    not match the body, and instead of the 401 the comparison raises
    [TypeError], which the framework turns into a 500. *)
Theorem non_ascii_signature_raises :
  signature_matches "s3cret" Sample.latin1_signature = false
  /\ handle_sms_webhook Sample.full Wire.model_validate_json
       Sample.latin1_signature Sample.registered
     = (Sample.registered, inl TypeError)
  /\ post_sms_received Sample.full Wire.model_validate_json
       Sample.latin1_signature Sample.registered
     = (Sample.registered,
        {| status := 500; content := TextContent "Internal Server Error" |}).
Proof. vm_compute. repeat split. Qed.

(** The same holds whatever the validator and the body are. *)
Lemma non_ascii_signature_raises_always (settings : Settings)
    (validate : bytes -> option WebhookPayload) (request : Request) (w : World)
    (secret signature timestamp : str) :
  truthy (webhook_secret settings) = Some secret ->
  truthy (headers_get (headers request) "X-Signature") = Some signature ->
  truthy (headers_get (headers request) "X-Timestamp") = Some timestamp ->
  isascii signature = false ->
  handle_sms_webhook settings validate request w = (w, inl TypeError).
Proof.
  intros Hs Hsig Hts Ha. apply handler_stopped_by_verification.
  rewrite (verify_signature_non_ascii settings request w secret signature timestamp);
    auto.
Qed.

(** ** C6 *)

(** C6.  For every request that passes signature verification and parses as
    a schema-valid payload but whose webhookId differs from the currently
    registered webhook id, the handler answers 400. *)
Theorem other_webhook_id_rejected :
  forall (settings : Settings) (validate : bytes -> option WebhookPayload)
         (request : Request) (w : World) (p : WebhookPayload) (registered : str),
    snd (verify_signature settings request w) = inr tt ->
    validate (body request) = Some p ->
    app_state_webhook_id w = Some registered ->
    webhook_id p <> registered ->
    post_sms_received settings validate request w
    = (w, {| status := 400;
             content := JSONContent [("detail", "Invalid webhook ID")] |}).
Proof.
  intros settings validate request w p registered Hv Hp Hid Hne.
  unfold post_sms_received.
  rewrite (handler_after_verification settings validate request w Hv), Hp, Hid.
  apply String.eqb_neq in Hne. rewrite Hne. reflexivity.
Qed.

Lemma other_webhook_id_rejected_sample :
  post_sms_received Sample.full Wire.model_validate_json Sample.other_webhook
    Sample.registered
  = (Sample.registered,
     {| status := 400; content := JSONContent [("detail", "Invalid webhook ID")] |}).
Proof.
  apply (other_webhook_id_rejected Sample.full Wire.model_validate_json
           Sample.other_webhook Sample.registered (Sample.parsed_for "wh_999")
           "wh_123").
  - vm_compute. reflexivity.
  - vm_compute. reflexivity.
  - reflexivity.
  - apply String.eqb_neq. vm_compute. reflexivity.
Defined.

(** ** C7 *)

(** C7.  When no shared secret is configured the signature block does
    nothing, and every schema-valid payload whose webhookId matches the
    registered id is answered 200, whatever the headers of the request, in
    particular with no X-Signature and no X-Timestamp header. *)
Theorem no_secret_no_signature_needed :
  forall (settings : Settings) (validate : bytes -> option WebhookPayload)
         (request : Request) (w : World) (p : WebhookPayload),
    truthy (webhook_secret settings) = None ->
    validate (body request) = Some p ->
    app_state_webhook_id w = Some (webhook_id p) ->
    verify_signature settings request w = (w, inr tt)
    /\ post_sms_received settings validate request w
       = (printed w (received_lines p),
          {| status := 200; content := JSONContent [("status", "ok")] |}).
Proof.
  intros settings validate request w p Hs Hp Hid.
  pose proof (verify_signature_skipped settings request w Hs) as Hv.
  split; [exact Hv|].
  apply post_accepts; auto. rewrite Hv. reflexivity.
Qed.

Lemma no_secret_no_signature_needed_sample :
  headers_get (headers Sample.bare) "X-Signature" = None
  /\ headers_get (headers Sample.bare) "X-Timestamp" = None
  /\ verify_signature Sample.account_only Sample.bare Sample.registered
     = (Sample.registered, inr tt)
  /\ post_sms_received Sample.account_only Wire.model_validate_json Sample.bare
       Sample.registered
     = (printed Sample.registered (received_lines Sample.parsed),
        {| status := 200; content := JSONContent [("status", "ok")] |}).
Proof.
  split; [reflexivity|]. split; [reflexivity|].
  apply (no_secret_no_signature_needed Sample.account_only Wire.model_validate_json
           Sample.bare Sample.registered Sample.parsed).
  - reflexivity.
  - vm_compute. reflexivity.
  - reflexivity.
Defined.

(** ** C8 *)

(** C8.  Unless the username, the password and the callback URL are all
    present, [register_webhook] and [unregister_webhook] return at once:
    nothing is sent to the gateway, nothing is printed, [app.state] is as it
    was, and no exception is raised. *)
Theorem incomplete_settings_skip_gateway :
  forall (settings : Settings) (gateway : Gateway) (w : World),
    credentials_present settings = false ->
    register_webhook settings gateway w = (w, inr tt)
    /\ unregister_webhook settings gateway w = (w, inr tt).
Proof.
  intros settings gateway w H. split.
  - apply register_webhook_skipped, H.
  - apply unregister_webhook_skipped, H.
Qed.

Lemma incomplete_settings_skip_gateway_sample :
  register_webhook Sample.secret_only Sample.accepting Sample.registered
  = (Sample.registered, inr tt)
  /\ unregister_webhook Sample.secret_only Sample.accepting Sample.registered
     = (Sample.registered, inr tt).
Proof.
  apply (incomplete_settings_skip_gateway Sample.secret_only Sample.accepting
           Sample.registered).
  reflexivity.
Defined.

(** ** C9 *)

(** C9, as stated, fails on the replay of a request whose X-Timestamp header
    is empty and whose signature is the HMAC of the body followed by that
    empty value: schema-valid body, matching webhook id, matching signature,
    and 401 both times. *)
Lemma replayed_empty_timestamp_rejected_twice :
  let first := post_sms_received Sample.full Wire.model_validate_json
                 Sample.empty_timestamp Sample.registered in
  let second := post_sms_received Sample.full Wire.model_validate_json
                  Sample.empty_timestamp (fst first) in
  Wire.model_validate_json (body Sample.empty_timestamp) = Some Sample.parsed
  /\ app_state_webhook_id Sample.registered = Some (webhook_id Sample.parsed)
  /\ signature_matches "s3cret" Sample.empty_timestamp = true
  /\ status (snd first) = 401%Z
  /\ status (snd second) = 401%Z.
Proof. vm_compute. repeat split. Qed.

(** C9 (amended).  For every valid request (schema-valid body, matching
    webhook id and, if a secret is configured, a matching signature next to a
    non-empty X-Timestamp header), submitting the same request twice against
    the same registered state is answered 200 both times, with the same
    body: the first submission leaves [app.state] untouched, and the only
    trace of the two is that the record is printed twice. *)
Theorem replay_accepted_twice :
  forall (validate : bytes -> option WebhookPayload) (settings : Settings)
         (request : Request) (w : World) (p : WebhookPayload),
    validate (body request) = Some p ->
    app_state_webhook_id w = Some (webhook_id p) ->
    (forall secret, truthy (webhook_secret settings) = Some secret ->
       signature_matches secret request = true
       /\ headers_get (headers request) "X-Timestamp" <> Some EmptyString) ->
    let first := post_sms_received settings validate request w in
    let second := post_sms_received settings validate request (fst first) in
    status (snd first) = 200%Z
    /\ status (snd second) = 200%Z
    /\ snd second = snd first
    /\ app_state_webhook_id (fst first) = app_state_webhook_id w
    /\ fst second = printed w (received_lines p ++ received_lines p).
Proof.
  intros validate settings request w p Hp Hid Hsig first second.
  assert (H1 : first = (printed w (received_lines p),
                        {| status := 200;
                           content := JSONContent [("status", "ok")] |})).
  { apply post_accepts; auto using signed_request_verifies. }
  assert (H2 : second = (printed (printed w (received_lines p)) (received_lines p),
                         {| status := 200;
                            content := JSONContent [("status", "ok")] |})).
  { subst second. rewrite H1. cbn [fst].
    apply post_accepts; auto using signed_request_verifies. }
  rewrite H2, H1, printed_printed. cbn. auto.
Qed.

Lemma replay_accepted_twice_sample :
  let first := post_sms_received Sample.full Wire.model_validate_json
                 Sample.signed Sample.registered in
  let second := post_sms_received Sample.full Wire.model_validate_json
                  Sample.signed (fst first) in
  status (snd first) = 200%Z
  /\ status (snd second) = 200%Z
  /\ snd second = snd first
  /\ app_state_webhook_id (fst first) = app_state_webhook_id Sample.registered
  /\ fst second
     = printed Sample.registered
         (received_lines Sample.parsed ++ received_lines Sample.parsed).
Proof.
  apply (replay_accepted_twice Wire.model_validate_json Sample.full
           Sample.signed Sample.registered Sample.parsed).
  - vm_compute. reflexivity.
  - reflexivity.
  - intros secret H. vm_compute in H. injection H as <-.
    split; [vm_compute; reflexivity | vm_compute; discriminate].
Defined.

(** ** C10 *)

(** C10.  When no shared secret is configured the response does not depend
    on the headers: for every body and every state of the process, two
    requests with that body and arbitrary header lists (with or without
    X-Signature and X-Timestamp, valid or not) get the same answer and leave
    the process in the same state. *)
Theorem response_ignores_headers_without_secret :
  forall (settings : Settings) (validate : bytes -> option WebhookPayload)
         (w : World) (payload_bytes : bytes) (hs hs' : Headers),
    truthy (webhook_secret settings) = None ->
    post_sms_received settings validate
      {| headers := hs; body := payload_bytes |} w
    = post_sms_received settings validate
        {| headers := hs'; body := payload_bytes |} w.
Proof.
  intros settings validate w payload_bytes hs hs' Hs.
  unfold post_sms_received.
  rewrite !handler_after_verification
    by (rewrite verify_signature_skipped; auto).
  reflexivity.
Qed.

Lemma response_ignores_headers_without_secret_sample :
  post_sms_received Sample.account_only Wire.model_validate_json
    {| headers := [("x-signature", "garbage"); ("x-timestamp", "0")];
       body := Sample.raw_body |} Sample.registered
  = post_sms_received Sample.account_only Wire.model_validate_json
      {| headers := []; body := Sample.raw_body |} Sample.registered.
Proof.
  apply (response_ignores_headers_without_secret Sample.account_only
           Wire.model_validate_json Sample.registered Sample.raw_body).
  reflexivity.
Defined.

(** * Further properties of the code *)

(** ** What the signature block lets through *)

Lemma verify_signature_passes_inv (settings : Settings) (request : Request)
    (w : World) (secret : str) :
  truthy (webhook_secret settings) = Some secret ->
  snd (verify_signature settings request w) = inr tt ->
  exists signature timestamp,
    headers_get (headers request) "X-Signature" = Some signature
    /\ headers_get (headers request) "X-Timestamp" = Some timestamp
    /\ timestamp <> EmptyString
    /\ signature
       = hexdigest (hmac_new (encode secret) (body request ++ encode timestamp)).
Proof.
  intros Hs H.
  destruct (truthy (headers_get (headers request) "X-Signature"))
    as [signature|] eqn:Hsig;
    [|rewrite (verify_signature_missing settings request w secret) in H;
      auto; discriminate].
  destruct (truthy (headers_get (headers request) "X-Timestamp"))
    as [timestamp|] eqn:Hts;
    [|rewrite (verify_signature_missing settings request w secret) in H;
      auto; discriminate].
  destruct (isascii signature) eqn:Ha.
  - rewrite (verify_signature_compared settings request w secret signature timestamp)
      in H; auto.
    cbn in H. destruct (String.eqb signature _) eqn:E; [|discriminate].
    apply String.eqb_eq in E.
    apply truthy_inv in Hsig. apply truthy_inv in Hts.
    exists signature, timestamp. intuition.
  - rewrite (verify_signature_non_ascii settings request w secret signature timestamp)
      in H; auto.
    discriminate.
Qed.

Lemma verify_signature_type_error_inv (settings : Settings) (request : Request)
    (w : World) :
  snd (verify_signature settings request w) = inl TypeError ->
  exists secret signature timestamp,
    truthy (webhook_secret settings) = Some secret
    /\ truthy (headers_get (headers request) "X-Signature") = Some signature
    /\ truthy (headers_get (headers request) "X-Timestamp") = Some timestamp
    /\ isascii signature = false.
Proof.
  intros H.
  destruct (truthy (webhook_secret settings)) as [secret|] eqn:Hs;
    [|rewrite verify_signature_skipped in H; auto; discriminate].
  destruct (truthy (headers_get (headers request) "X-Signature"))
    as [signature|] eqn:Hsig;
    [|rewrite (verify_signature_missing settings request w secret) in H;
      auto; discriminate].
  destruct (truthy (headers_get (headers request) "X-Timestamp"))
    as [timestamp|] eqn:Hts;
    [|rewrite (verify_signature_missing settings request w secret) in H;
      auto; discriminate].
  destruct (isascii signature) eqn:Ha.
  - rewrite (verify_signature_compared settings request w secret signature timestamp)
      in H; auto.
    cbn in H. destruct (String.eqb signature _); discriminate.
  - exists secret, signature, timestamp. auto.
Qed.

(** The outcome of the block does not depend on the state of the process. *)
Lemma verify_signature_same_outcome (settings : Settings) (request : Request)
    (w1 w2 : World) :
  snd (verify_signature settings request w1)
  = snd (verify_signature settings request w2).
Proof.
  unfold verify_signature.
  destruct (truthy (webhook_secret settings)); [|reflexivity].
  destruct (truthy (headers_get _ "X-Signature")); [|reflexivity].
  destruct (truthy (headers_get _ "X-Timestamp")); [|reflexivity].
  cbv zeta. unfold bind.
  destruct (compare_digest _ _) as [[|]|]; reflexivity.
Qed.

(** X1.  The signature block of lines 119-130 lets a request through exactly
    when no (non-empty) secret is configured, or the X-Signature header
    equals the hex HMAC-SHA256, under the secret, of the body followed by the
    X-Timestamp value and that value is not empty. *)
Theorem verification_passes_iff :
  forall (settings : Settings) (request : Request) (w : World),
    snd (verify_signature settings request w) = inr tt
    <-> (truthy (webhook_secret settings) = None
         \/ exists secret,
              truthy (webhook_secret settings) = Some secret
              /\ signature_matches secret request = true
              /\ headers_get (headers request) "X-Timestamp" <> Some EmptyString).
Proof.
  intros settings request w. split.
  - intros H. destruct (truthy (webhook_secret settings)) as [secret|] eqn:Hs;
      [right|left; reflexivity].
    destruct (verify_signature_passes_inv settings request w secret Hs H)
      as (signature & timestamp & Hsig & Hts & Hne & Heq).
    exists secret. split; [reflexivity|]. split.
    + unfold signature_matches. rewrite Hsig, Hts, Heq. apply String.eqb_refl.
    + rewrite Hts. intros E. injection E as E. contradiction.
  - intros [Hs|(secret & Hs & Hm & Hne)].
    + rewrite verify_signature_skipped; auto.
    + rewrite (verify_signature_accepts settings request w secret); auto.
Qed.

(** ** The answers of the endpoint *)

(** X2.  The endpoint answers 200 exactly when the signature block lets the
    request through, the body validates, and the webhook id of the payload
    is the one stored in [app.state]. *)
Theorem accepted_iff :
  forall (settings : Settings) (validate : bytes -> option WebhookPayload)
         (request : Request) (w : World),
    status (snd (post_sms_received settings validate request w)) = 200%Z
    <-> (snd (verify_signature settings request w) = inr tt
         /\ exists p, validate (body request) = Some p
                      /\ app_state_webhook_id w = Some (webhook_id p)).
Proof.
  intros settings validate request w. split.
  - intros H. unfold post_sms_received in H.
    destruct (verify_signature_outcome settings request w) as [Hv|[[detail Hv]|Hv]].
    + split; [exact Hv|].
      rewrite (handler_after_verification settings validate request w Hv) in H.
      destruct (validate (body request)) as [p|]; [|cbn in H; discriminate].
      destruct (app_state_webhook_id w) as [registered|]; [|cbn in H; discriminate].
      destruct (String.eqb (webhook_id p) registered) eqn:E;
        [|cbn in H; discriminate].
      apply String.eqb_eq in E. subst. exists p. auto.
    + rewrite (handler_stopped_by_verification settings validate request w _ Hv) in H.
      cbn in H. discriminate.
    + rewrite (handler_stopped_by_verification settings validate request w _ Hv) in H.
      cbn in H. discriminate.
  - intros (Hv & p & Hp & Hid).
    rewrite (post_accepts settings validate request w p Hv Hp Hid). reflexivity.
Qed.

(** X3.  The handler never writes [app.state] and never calls the gateway; a
    request that ends in an exception leaves the process exactly as it was,
    and an accepted one only adds the five lines of its record to the
    output. *)
Theorem handler_footprint :
  forall (settings : Settings) (validate : bytes -> option WebhookPayload)
         (request : Request) (w : World),
    let result := handle_sms_webhook settings validate request w in
    app_state_webhook_id (fst result) = app_state_webhook_id w
    /\ outbound (fst result) = outbound w
    /\ (forall e, snd result = inl e -> fst result = w)
    /\ (forall j, snd result = inr j ->
          exists p, validate (body request) = Some p
                    /\ fst result = printed w (received_lines p)).
Proof.
  intros settings validate request w result. subst result.
  destruct (verify_signature_outcome settings request w) as [Hv|[[detail Hv]|Hv]].
  - rewrite (handler_after_verification settings validate request w Hv).
    destruct (validate (body request)) as [p|];
      [|cbn; repeat split; auto; discriminate].
    destruct (app_state_webhook_id w) as [registered|] eqn:Hid;
      [|cbn; repeat split; auto; discriminate].
    destruct (String.eqb (webhook_id p) registered);
      cbn; repeat split; auto; try discriminate.
    intros j _. exists p. auto.
  - rewrite (handler_stopped_by_verification settings validate request w _ Hv).
    cbn. repeat split; auto; discriminate.
  - rewrite (handler_stopped_by_verification settings validate request w _ Hv).
    cbn. repeat split; auto; discriminate.
Qed.

Lemma verify_signature_four_outcomes (settings : Settings) (request : Request)
    (w : World) :
  snd (verify_signature settings request w) = inr tt
  \/ snd (verify_signature settings request w)
     = inl (HTTPException 401 "Missing signature header")
  \/ snd (verify_signature settings request w)
     = inl (HTTPException 401 "Invalid signature")
  \/ snd (verify_signature settings request w) = inl TypeError.
Proof.
  unfold verify_signature.
  destruct (truthy (webhook_secret settings)); [|auto].
  destruct (truthy (headers_get _ "X-Signature")); [|auto].
  destruct (truthy (headers_get _ "X-Timestamp")); [|auto].
  cbv zeta. unfold bind.
  destruct (compare_digest _ _) as [[|]|]; cbn; auto.
Qed.

(** X4.  Whatever the request, the settings and the state, the answer is one
    of six fixed responses: nothing of the request, of the secret or of the
    validation error is echoed to the caller. *)
Theorem response_among_six :
  forall (settings : Settings) (validate : bytes -> option WebhookPayload)
         (request : Request) (w : World),
    In (snd (post_sms_received settings validate request w)) possible_responses.
Proof.
  intros settings validate request w.
  unfold post_sms_received, possible_responses.
  destruct (verify_signature_four_outcomes settings request w)
    as [Hv|[Hv|[Hv|Hv]]].
  - rewrite (handler_after_verification settings validate request w Hv).
    destruct (validate (body request)) as [p|]; [|cbn; auto 10].
    destruct (app_state_webhook_id w) as [registered|]; [|cbn; auto 10].
    destruct (String.eqb (webhook_id p) registered); cbn; auto 10.
  - rewrite (handler_stopped_by_verification settings validate request w _ Hv).
    cbn. auto 10.
  - rewrite (handler_stopped_by_verification settings validate request w _ Hv).
    cbn. auto 10.
  - rewrite (handler_stopped_by_verification settings validate request w _ Hv).
    cbn. auto 10.
Qed.

(** X5.  The endpoint answers 500 in exactly two situations: a secret is
    configured and the request carries a non-empty timestamp next to a
    signature with a non-ASCII character, or the request passes the
    signature block with a body that validates while no webhook id is stored
    in [app.state]. *)
Theorem server_error_iff :
  forall (settings : Settings) (validate : bytes -> option WebhookPayload)
         (request : Request) (w : World),
    status (snd (post_sms_received settings validate request w)) = 500%Z
    <-> ((exists secret signature timestamp,
            truthy (webhook_secret settings) = Some secret
            /\ truthy (headers_get (headers request) "X-Signature") = Some signature
            /\ truthy (headers_get (headers request) "X-Timestamp") = Some timestamp
            /\ isascii signature = false)
         \/ (snd (verify_signature settings request w) = inr tt
             /\ (exists p, validate (body request) = Some p)
             /\ app_state_webhook_id w = None)).
Proof.
  intros settings validate request w. unfold post_sms_received. split.
  - intros H.
    destruct (verify_signature_four_outcomes settings request w)
      as [Hv|[Hv|[Hv|Hv]]].
    + right. split; [exact Hv|].
      rewrite (handler_after_verification settings validate request w Hv) in H.
      destruct (validate (body request)) as [p|]; [|cbn in H; discriminate].
      destruct (app_state_webhook_id w) as [registered|].
      * destruct (String.eqb (webhook_id p) registered); cbn in H; discriminate.
      * split; [exists p|]; reflexivity.
    + rewrite (handler_stopped_by_verification settings validate request w _ Hv) in H.
      cbn in H. discriminate.
    + rewrite (handler_stopped_by_verification settings validate request w _ Hv) in H.
      cbn in H. discriminate.
    + left. apply (verify_signature_type_error_inv settings request w Hv).
  - intros [(secret & signature & timestamp & Hs & Hsig & Hts & Ha)
           |(Hv & (p & Hp) & Hid)].
    + rewrite (non_ascii_signature_raises_always settings validate request w
                 secret signature timestamp Hs Hsig Hts Ha).
      reflexivity.
    + rewrite (handler_after_verification settings validate request w Hv), Hp, Hid.
      reflexivity.
Qed.

(** X6.  The endpoint answers 400 exactly when the request passes the
    signature block and either the body does not validate, or it validates
    to a payload whose webhook id is not the stored one.  A body that does
    not validate gets its 400 before [app.state] is read, so also when no id
    is stored. *)
Theorem bad_request_iff :
  forall (settings : Settings) (validate : bytes -> option WebhookPayload)
         (request : Request) (w : World),
    status (snd (post_sms_received settings validate request w)) = 400%Z
    <-> (snd (verify_signature settings request w) = inr tt
         /\ (validate (body request) = None
             \/ exists p registered,
                  validate (body request) = Some p
                  /\ app_state_webhook_id w = Some registered
                  /\ webhook_id p <> registered)).
Proof.
  intros settings validate request w. unfold post_sms_received. split.
  - intros H.
    destruct (verify_signature_four_outcomes settings request w)
      as [Hv|[Hv|[Hv|Hv]]];
      try (rewrite (handler_stopped_by_verification settings validate request w _ Hv)
             in H; cbn in H; discriminate).
    split; [exact Hv|].
    rewrite (handler_after_verification settings validate request w Hv) in H.
    destruct (validate (body request)) as [p|]; [|left; reflexivity].
    destruct (app_state_webhook_id w) as [registered|]; [|cbn in H; discriminate].
    destruct (String.eqb (webhook_id p) registered) eqn:E;
      [cbn in H; discriminate|].
    apply String.eqb_neq in E. right. exists p, registered. auto.
  - intros (Hv & [Hp|(p & registered & Hp & Hid & Hne)]);
      rewrite (handler_after_verification settings validate request w Hv), Hp.
    + reflexivity.
    + rewrite Hid. apply String.eqb_neq in Hne. rewrite Hne. reflexivity.
Qed.

(** ** The shape of an accepted signature *)

Lemma sha256_length (msg : bytes) : List.length (SHA256.sha256 msg) = 32.
Proof.
  unfold SHA256.sha256.
  destruct (fold_left _ _ _) as [[[[[[[a b] c] d] e] f] g] h].
  reflexivity.
Qed.

Lemma hexdigest_length (d : bytes) :
  String.length (hexdigest d) = 2 * List.length d.
Proof.
  induction d as [|b rest IH]; [reflexivity|].
  rewrite hexdigest_cons. cbn [String.length List.length]. rewrite IH. lia.
Qed.

Lemma hex_digits_lower (b : byte) :
  lower_hex_char (hex_digit (Byte.to_N b / 16))
  && lower_hex_char (hex_digit (Byte.to_N b mod 16)) = true.
Proof. destruct b; vm_compute; reflexivity. Qed.

Lemma lower_hex_hexdigest (d : bytes) : lower_hex (hexdigest d) = true.
Proof.
  induction d as [|b rest IH]; [reflexivity|].
  rewrite hexdigest_cons. cbn [lower_hex]. rewrite IH, andb_true_r.
  apply hex_digits_lower.
Qed.

(** X7.  When a secret is configured, a request passes the signature block
    only if its X-Signature value is made of exactly 64 lowercase
    hexadecimal digits: a signature in upper case, shortened, or with a
    prefix is rejected. *)
Theorem accepted_signature_is_lower_hex :
  forall (settings : Settings) (request : Request) (w : World)
         (secret signature : str),
    truthy (webhook_secret settings) = Some secret ->
    headers_get (headers request) "X-Signature" = Some signature ->
    snd (verify_signature settings request w) = inr tt ->
    String.length signature = 64 /\ lower_hex signature = true.
Proof.
  intros settings request w secret signature Hs Hsig Hv.
  destruct (verify_signature_passes_inv settings request w secret Hs Hv)
    as (signature' & timestamp & Hsig' & _ & _ & Heq).
  rewrite Hsig in Hsig'. injection Hsig' as <-. subst signature. split.
  - rewrite hexdigest_length. unfold hmac_new. rewrite sha256_length. reflexivity.
  - apply lower_hex_hexdigest.
Qed.

Lemma accepted_signature_is_lower_hex_sample :
  String.length "9d7a14c8ef16988de2ca08f8992fcda521c1ce744962ab18ee4e0644fdb0c670" = 64
  /\ lower_hex "9d7a14c8ef16988de2ca08f8992fcda521c1ce744962ab18ee4e0644fdb0c670" = true.
Proof.
  apply (accepted_signature_is_lower_hex Sample.full Sample.signed Sample.registered
           "s3cret").
  - reflexivity.
  - reflexivity.
  - vm_compute. reflexivity.
Defined.

(** ** Replays and the reach of the signature *)

Lemma response_depends_on_stored_id (settings : Settings)
    (validate : bytes -> option WebhookPayload) (request : Request) (w1 w2 : World) :
  app_state_webhook_id w1 = app_state_webhook_id w2 ->
  snd (post_sms_received settings validate request w1)
  = snd (post_sms_received settings validate request w2).
Proof.
  intros Hid. unfold post_sms_received.
  pose proof (verify_signature_same_outcome settings request w1 w2) as Hsame.
  destruct (verify_signature_four_outcomes settings request w1)
    as [Hv|[Hv|[Hv|Hv]]];
    pose proof Hv as Hv2; rewrite Hsame in Hv2.
  - rewrite (handler_after_verification settings validate request w1 Hv),
            (handler_after_verification settings validate request w2 Hv2), Hid.
    destruct (validate (body request)) as [p|]; [|reflexivity].
    destruct (app_state_webhook_id w2) as [registered|]; [|reflexivity].
    destruct (String.eqb (webhook_id p) registered); reflexivity.
  - rewrite (handler_stopped_by_verification settings validate request w1 _ Hv),
            (handler_stopped_by_verification settings validate request w2 _ Hv2).
    reflexivity.
  - rewrite (handler_stopped_by_verification settings validate request w1 _ Hv),
            (handler_stopped_by_verification settings validate request w2 _ Hv2).
    reflexivity.
  - rewrite (handler_stopped_by_verification settings validate request w1 _ Hv),
            (handler_stopped_by_verification settings validate request w2 _ Hv2).
    reflexivity.
Qed.

Lemma post_keeps_stored_id (settings : Settings)
    (validate : bytes -> option WebhookPayload) (request : Request) (w : World) :
  app_state_webhook_id (fst (post_sms_received settings validate request w))
  = app_state_webhook_id w.
Proof.
  unfold post_sms_received.
  destruct (verify_signature_four_outcomes settings request w)
    as [Hv|[Hv|[Hv|Hv]]];
    try (rewrite (handler_stopped_by_verification settings validate request w _ Hv);
         reflexivity).
  rewrite (handler_after_verification settings validate request w Hv).
  destruct (validate (body request)) as [p|]; [|reflexivity].
  destruct (app_state_webhook_id w) as [registered|] eqn:Hid; [|cbn; auto].
  destruct (String.eqb (webhook_id p) registered); cbn; auto.
Qed.

(** X8.  Submitting any request a second time, right after the first, gets
    the same response, accepted or not: the handler keeps no record of what
    it has seen, and the state it reads is not changed by the first
    submission. *)
Theorem replay_same_response :
  forall (settings : Settings) (validate : bytes -> option WebhookPayload)
         (request : Request) (w : World),
    snd (post_sms_received settings validate request
           (fst (post_sms_received settings validate request w)))
    = snd (post_sms_received settings validate request w).
Proof.
  intros settings validate request w.
  apply response_depends_on_stored_id, post_keeps_stored_id.
Qed.

Lemma encode_app (a b : str) : encode (a +++ b) = encode a ++ encode b.
Proof.
  induction a as [|c rest IH]; [reflexivity|].
  cbn [String.append encode]. rewrite IH, app_assoc. reflexivity.
Qed.

Lemma append_nonempty (a b : str) : b <> EmptyString -> a +++ b <> EmptyString.
Proof. destruct a; cbn; [auto | discriminate]. Qed.

(** X9.  The signature covers the body and the timestamp as one run of
    bytes, with nothing marking where the body ends: two requests with the
    same X-Signature header, one of which has the last bytes of the body of
    the other moved to the front of its X-Timestamp value, get the same
    verdict from the signature block. *)
Theorem signature_covers_concatenation_only :
  forall (settings : Settings) (longer shorter : Request) (w : World)
         (moved timestamp : str),
    headers_get (headers longer) "X-Signature"
    = headers_get (headers shorter) "X-Signature" ->
    headers_get (headers longer) "X-Timestamp" = Some timestamp ->
    timestamp <> EmptyString ->
    headers_get (headers shorter) "X-Timestamp" = Some (moved +++ timestamp) ->
    body longer = body shorter ++ encode moved ->
    verify_signature settings longer w = verify_signature settings shorter w.
Proof.
  intros settings longer shorter w moved timestamp Hsig Hts Hne Hts' Hbody.
  unfold verify_signature.
  rewrite Hsig, Hts, Hts', Hbody.
  rewrite (truthy_nonempty timestamp Hne).
  pose proof (truthy_nonempty (moved +++ timestamp)
                (append_nonempty moved timestamp Hne)) as Hmoved.
  unfold str in Hmoved. rewrite Hmoved.
  rewrite encode_app, <- app_assoc. reflexivity.
Qed.

Lemma signature_covers_concatenation_only_sample :
  verify_signature Sample.full More.long_body Sample.registered
  = verify_signature Sample.full More.short_body Sample.registered.
Proof.
  apply (signature_covers_concatenation_only Sample.full More.long_body
           More.short_body Sample.registered "17145" "66645").
  - reflexivity.
  - reflexivity.
  - discriminate.
  - reflexivity.
  - reflexivity.
Defined.

(** ** Registration and unregistration *)

Lemma register_webhook_success (settings : Settings) (gateway : Gateway) (w : World)
    (username password url wid : str) :
  truthy (api_username settings) = Some username ->
  truthy (api_password settings) = Some password ->
  truthy (webhook_url settings) = Some url ->
  registered_id (gateway (POST (api_url settings +++ "/webhooks") (username, password)
                               [("url", url); ("event", "sms:received")]))
  = Some wid ->
  register_webhook settings gateway w
  = ({| app_state_webhook_id := Some wid;
        stdout := stdout w ++ ["Registered webhook with ID: " +++ wid];
        outbound := outbound w
                    ++ [POST (api_url settings +++ "/webhooks") (username, password)
                             [("url", url); ("event", "sms:received")]] |},
     inr tt).
Proof.
  intros Hu Hp Hurl Hid. unfold register_webhook, bind, send.
  rewrite Hu, Hp, Hurl. unfold registered_id in Hid.
  destruct (gateway _) as [response| |]; try discriminate.
  unfold raise_for_status.
  destruct (_ && _)%bool; [|discriminate].
  cbn. destruct (response_json response) as [[members|]|]; try discriminate.
  cbn. rewrite Hid. reflexivity.
Qed.

Lemma register_webhook_failure (settings : Settings) (gateway : Gateway) (w : World)
    (username password url : str) (e : exception) :
  truthy (api_username settings) = Some username ->
  truthy (api_password settings) = Some password ->
  truthy (webhook_url settings) = Some url ->
  registration_error
    (gateway (POST (api_url settings +++ "/webhooks") (username, password)
                   [("url", url); ("event", "sms:received")]))
  = Some e ->
  register_webhook settings gateway w
  = (after_call w
       (POST (api_url settings +++ "/webhooks") (username, password)
             [("url", url); ("event", "sms:received")])
       (gateway (POST (api_url settings +++ "/webhooks") (username, password)
                      [("url", url); ("event", "sms:received")])),
     inl e).
Proof.
  intros Hu Hp Hurl He. unfold register_webhook, bind, send.
  rewrite Hu, Hp, Hurl. unfold registration_error in He.
  destruct (gateway _) as [response| |];
    try (injection He as <-; reflexivity).
  unfold raise_for_status.
  destruct (_ && _)%bool; [|injection He as <-; reflexivity].
  cbn. destruct (response_json response) as [[members|]|];
    try (injection He as <-; reflexivity).
  cbn. destruct (getitem members "id"); [discriminate|].
  injection He as <-. reflexivity.
Qed.

Lemma after_call_keeps (w : World) (call : Call) (reply : Reply) :
  app_state_webhook_id (after_call w call reply) = app_state_webhook_id w
  /\ stdout (after_call w call reply) = stdout w.
Proof. destruct reply; split; reflexivity. Qed.

Lemma unregister_webhook_success (settings : Settings) (gateway : Gateway) (w : World)
    (username password url registered : str) :
  truthy (api_username settings) = Some username ->
  truthy (api_password settings) = Some password ->
  truthy (webhook_url settings) = Some url ->
  app_state_webhook_id w = Some registered ->
  failure_of (gateway (DELETE (api_url settings +++ "/webhooks/" +++ registered)
                              (username, password))) = None ->
  unregister_webhook settings gateway w
  = (printed
       (called w [DELETE (api_url settings +++ "/webhooks/" +++ registered)
                         (username, password)])
       ["Unregistered webhook ID: " +++ registered],
     inr tt).
Proof.
  intros Hu Hp Hurl Hid Hok.
  unfold unregister_webhook, bind, hasattr_webhook_id.
  rewrite Hu, Hp, Hurl, Hid. unfold send.
  destruct (gateway _) as [response| |]; cbn in Hok; try discriminate.
  unfold raise_for_status.
  destruct (_ && _)%bool; [|discriminate].
  reflexivity.
Qed.

(** X10.  With the three settings present and a 2xx reply whose JSON body has
    an ["id"], [register_webhook] sends one POST to [api_url + "/webhooks"]
    with the account as basic auth and the callback URL and the event
    ["sms:received"] as body, stores the returned id in [app.state]
    (replacing any earlier one) and prints one line naming it. *)
Theorem registration_stores_returned_id :
  forall (settings : Settings) (gateway : Gateway) (w : World)
         (username password url wid : str),
    truthy (api_username settings) = Some username ->
    truthy (api_password settings) = Some password ->
    truthy (webhook_url settings) = Some url ->
    registered_id
      (gateway (POST (api_url settings +++ "/webhooks") (username, password)
                     [("url", url); ("event", "sms:received")]))
    = Some wid ->
    register_webhook settings gateway w
    = ({| app_state_webhook_id := Some wid;
          stdout := stdout w ++ ["Registered webhook with ID: " +++ wid];
          outbound := outbound w
                      ++ [POST (api_url settings +++ "/webhooks") (username, password)
                               [("url", url); ("event", "sms:received")]] |},
       inr tt).
Proof.
  intros settings gateway w username password url wid.
  apply register_webhook_success.
Qed.

Lemma registration_stores_returned_id_sample :
  register_webhook Sample.full Sample.accepting
    {| app_state_webhook_id := Some "wh_old"; stdout := []; outbound := [] |}
  = (Sample.registered, inr tt).
Proof.
  apply (registration_stores_returned_id Sample.full Sample.accepting
           {| app_state_webhook_id := Some "wh_old"; stdout := []; outbound := [] |}
           "user" "pass" "https://hook.test/webhook/sms-received" "wh_123");
    reflexivity.
Defined.

(** X11.  When the registration call gets no response, a status outside
    2xx, a body that is not JSON, a JSON document that is not an object, or
    an object without ["id"], [register_webhook] raises the matching
    exception; the POST has left the process unless the connection could not
    be made; no id is stored and nothing is printed.  [lifespan] then ends
    with that exception whatever was to be served, and no DELETE is sent. *)
Theorem registration_failure_stops_startup :
  forall (settings : Settings) (gateway : Gateway) (serving : App unit) (w : World)
         (username password url : str) (e : exception),
    truthy (api_username settings) = Some username ->
    truthy (api_password settings) = Some password ->
    truthy (webhook_url settings) = Some url ->
    registration_error
      (gateway (POST (api_url settings +++ "/webhooks") (username, password)
                     [("url", url); ("event", "sms:received")]))
    = Some e ->
    let call := POST (api_url settings +++ "/webhooks") (username, password)
                     [("url", url); ("event", "sms:received")] in
    let w' := after_call w call (gateway call) in
    register_webhook settings gateway w = (w', inl e)
    /\ lifespan settings gateway serving w = (w', inl e)
    /\ app_state_webhook_id w' = app_state_webhook_id w
    /\ stdout w' = stdout w
    /\ (outbound w' = outbound w \/ outbound w' = outbound w ++ [call])
    /\ (gateway call = NotSent -> w' = w).
Proof.
  intros settings gateway serving w username password url e Hu Hp Hurl He call w'.
  pose proof (register_webhook_failure settings gateway w username password url e
                Hu Hp Hurl He) as Hreg.
  fold call in Hreg. fold w' in Hreg.
  split; [exact Hreg|]. split.
  { unfold lifespan, bind. rewrite Hreg. reflexivity. }
  split; [apply after_call_keeps|]. split; [apply after_call_keeps|].
  subst w'. split.
  - destruct (gateway call); cbn; auto.
  - intros ->. reflexivity.
Qed.

Lemma registration_failure_stops_startup_sample :
  register_webhook Sample.full More.answering_array initial_world
  = (called initial_world
       [POST "https://gateway.test/v1/webhooks" ("user", "pass")
             [("url", "https://hook.test/webhook/sms-received");
              ("event", "sms:received")]],
     inl TypeError)
  /\ lifespan Sample.full More.answering_array (print "serving") initial_world
     = (called initial_world
          [POST "https://gateway.test/v1/webhooks" ("user", "pass")
                [("url", "https://hook.test/webhook/sms-received");
                 ("event", "sms:received")]],
        inl TypeError).
Proof.
  destruct (registration_failure_stops_startup Sample.full More.answering_array
              (print "serving") initial_world
              "user" "pass" "https://hook.test/webhook/sms-received" TypeError
              eq_refl eq_refl eq_refl eq_refl) as (H1 & H2 & _).
  split; [exact H1 | exact H2].
Defined.

(** The same at the other failures: no connection, no answer, no id. *)
Example registration_without_connection :
  register_webhook Sample.full Sample.unreachable initial_world
  = (initial_world, inl TransportError).
Proof. vm_compute. reflexivity. Qed.

Example registration_without_answer :
  outbound (fst (register_webhook Sample.full More.silent initial_world))
  = [POST "https://gateway.test/v1/webhooks" ("user", "pass")
          [("url", "https://hook.test/webhook/sms-received");
           ("event", "sms:received")]]
  /\ snd (register_webhook Sample.full More.silent initial_world)
     = inl TransportError.
Proof. vm_compute. split; reflexivity. Qed.

Example registration_without_id :
  snd (register_webhook Sample.full More.without_id initial_world)
  = inl (KeyError "id").
Proof. vm_compute. reflexivity. Qed.

(** X12.  [unregister_webhook] never writes [app.state]: whether it skips,
    succeeds or fails, the id stored at registration is still there
    afterwards, and it sends at most one call, a DELETE. *)
Theorem unregister_keeps_stored_id :
  forall (settings : Settings) (gateway : Gateway) (w : World),
    let w' := fst (unregister_webhook settings gateway w) in
    app_state_webhook_id w' = app_state_webhook_id w
    /\ (outbound w' = outbound w
        \/ exists url auth, outbound w' = outbound w ++ [DELETE url auth]).
Proof.
  intros settings gateway w.
  unfold unregister_webhook, bind, hasattr_webhook_id.
  destruct (truthy (api_username settings)); [|cbn; auto].
  destruct (truthy (api_password settings)); [|cbn; auto].
  destruct (truthy (webhook_url settings)); [|cbn; auto].
  destruct (app_state_webhook_id w) as [registered|] eqn:Hid; [|cbn; auto].
  unfold send.
  destruct (gateway _) as [response| |]; [|cbn; auto|cbn; eauto].
  unfold raise_for_status.
  destruct (_ && _)%bool; cbn; eauto.
Qed.

(** X13.  With no id stored in [app.state], [unregister_webhook] returns at
    once even when the account and the callback URL are configured: nothing
    is sent and nothing is printed. *)
Theorem unregister_without_id_skips :
  forall (settings : Settings) (gateway : Gateway) (w : World),
    app_state_webhook_id w = None ->
    unregister_webhook settings gateway w = (w, inr tt).
Proof.
  intros settings gateway w Hid.
  unfold unregister_webhook, bind, hasattr_webhook_id. rewrite Hid.
  destruct (truthy (api_username settings)); [|reflexivity].
  destruct (truthy (api_password settings)); [|reflexivity].
  destruct (truthy (webhook_url settings)); reflexivity.
Qed.

Lemma unregister_without_id_skips_sample :
  credentials_present Sample.full = true
  /\ unregister_webhook Sample.full Sample.unreachable initial_world
     = (initial_world, inr tt).
Proof.
  split; [reflexivity|].
  apply (unregister_without_id_skips Sample.full Sample.unreachable initial_world).
  reflexivity.
Defined.

(** X14.  With the three settings present, an id stored and a 2xx reply,
    [unregister_webhook] sends one DELETE to
    [api_url + "/webhooks/" + id] with the account as basic auth and prints
    one line naming the id. *)
Theorem unregistration_deletes_stored_id :
  forall (settings : Settings) (gateway : Gateway) (w : World)
         (username password url registered : str),
    truthy (api_username settings) = Some username ->
    truthy (api_password settings) = Some password ->
    truthy (webhook_url settings) = Some url ->
    app_state_webhook_id w = Some registered ->
    failure_of (gateway (DELETE (api_url settings +++ "/webhooks/" +++ registered)
                                (username, password))) = None ->
    unregister_webhook settings gateway w
    = (printed
         (called w [DELETE (api_url settings +++ "/webhooks/" +++ registered)
                           (username, password)])
         ["Unregistered webhook ID: " +++ registered],
       inr tt).
Proof.
  intros settings gateway w username password url registered.
  apply unregister_webhook_success.
Qed.

Lemma unregistration_deletes_stored_id_sample :
  unregister_webhook Sample.full Sample.accepting Sample.registered
  = (printed
       (called Sample.registered
          [DELETE "https://gateway.test/v1/webhooks/wh_123" ("user", "pass")])
       ["Unregistered webhook ID: wh_123"],
     inr tt).
Proof.
  apply (unregistration_deletes_stored_id Sample.full Sample.accepting
           Sample.registered "user" "pass"
           "https://hook.test/webhook/sms-received" "wh_123");
    reflexivity.
Defined.

(** ** The whole life of the process *)

(** X15.  Over a whole run in which the registration succeeds, what is
    served ends normally with the stored id untouched, and the gateway
    accepts the unregistration, the DELETE of [lifespan] goes to the id that
    the registration reply carried, and the run ends normally. *)
Theorem lifespan_unregisters_what_it_registered :
  forall (settings : Settings) (gateway : Gateway) (serving : App unit)
         (w0 w1 w2 : World) (username password url wid : str),
    truthy (api_username settings) = Some username ->
    truthy (api_password settings) = Some password ->
    truthy (webhook_url settings) = Some url ->
    registered_id
      (gateway (POST (api_url settings +++ "/webhooks") (username, password)
                     [("url", url); ("event", "sms:received")]))
    = Some wid ->
    w1 = fst (register_webhook settings gateway w0) ->
    serving w1 = (w2, inr tt) ->
    app_state_webhook_id w2 = app_state_webhook_id w1 ->
    failure_of (gateway (DELETE (api_url settings +++ "/webhooks/" +++ wid)
                                (username, password))) = None ->
    lifespan settings gateway serving w0
    = (printed
         (called w2 [DELETE (api_url settings +++ "/webhooks/" +++ wid)
                            (username, password)])
         ["Unregistered webhook ID: " +++ wid],
       inr tt).
Proof.
  intros settings gateway serving w0 w1 w2 username password url wid
         Hu Hp Hurl Hid Hw1 Hserve Hkeep Hok.
  pose proof (register_webhook_success settings gateway w0 username password url wid
                Hu Hp Hurl Hid) as Hreg.
  rewrite Hreg in Hw1. cbn [fst] in Hw1. subst w1.
  unfold lifespan, bind. rewrite Hreg, Hserve.
  apply (unregister_webhook_success settings gateway w2 username password url wid);
    auto.
Qed.

Lemma lifespan_unregisters_what_it_registered_sample :
  lifespan Sample.full Sample.accepting
    (fun w => let (w', _) :=
                handle_sms_webhook Sample.full Wire.model_validate_json
                  Sample.signed w in
              (w', inr tt))
    initial_world
  = (printed
       (called
          (printed Sample.registered (received_lines Sample.parsed))
          [DELETE "https://gateway.test/v1/webhooks/wh_123" ("user", "pass")])
       ["Unregistered webhook ID: wh_123"],
     inr tt).
Proof.
  apply (lifespan_unregisters_what_it_registered Sample.full Sample.accepting _
           initial_world Sample.registered
           (printed Sample.registered (received_lines Sample.parsed))
           "user" "pass" "https://hook.test/webhook/sms-received" "wh_123");
    vm_compute; reflexivity.
Defined.

(** X16.  A process whose registration succeeded accepts, among the requests
    that pass the signature block with a body that validates, exactly those
    whose webhook id is the id the gateway returned; the others get 400. *)
Theorem registered_process_accepts_returned_id :
  forall (settings : Settings) (gateway : Gateway)
         (validate : bytes -> option WebhookPayload) (request : Request)
         (w0 w1 : World) (username password url wid : str) (p : WebhookPayload),
    truthy (api_username settings) = Some username ->
    truthy (api_password settings) = Some password ->
    truthy (webhook_url settings) = Some url ->
    registered_id
      (gateway (POST (api_url settings +++ "/webhooks") (username, password)
                     [("url", url); ("event", "sms:received")]))
    = Some wid ->
    w1 = fst (register_webhook settings gateway w0) ->
    snd (verify_signature settings request w1) = inr tt ->
    validate (body request) = Some p ->
    (webhook_id p = wid ->
     status (snd (post_sms_received settings validate request w1)) = 200%Z)
    /\ (webhook_id p <> wid ->
        status (snd (post_sms_received settings validate request w1)) = 400%Z).
Proof.
  intros settings gateway validate request w0 w1 username password url wid p
         Hu Hp Hurl Hid Hw1 Hv Hvalid.
  rewrite (register_webhook_success settings gateway w0 username password url wid
             Hu Hp Hurl Hid) in Hw1.
  cbn [fst] in Hw1. unfold post_sms_received.
  rewrite (handler_after_verification settings validate request w1 Hv), Hvalid.
  rewrite Hw1. cbn [app_state_webhook_id]. split; intros H.
  - rewrite H, String.eqb_refl. reflexivity.
  - apply String.eqb_neq in H. rewrite H. reflexivity.
Qed.

Lemma registered_process_accepts_returned_id_sample :
  status (snd (post_sms_received Sample.full Wire.model_validate_json Sample.signed
                 (fst (register_webhook Sample.full Sample.accepting initial_world))))
  = 200%Z.
Proof.
  apply (registered_process_accepts_returned_id Sample.full Sample.accepting
           Wire.model_validate_json Sample.signed initial_world
           (fst (register_webhook Sample.full Sample.accepting initial_world))
           "user" "pass" "https://hook.test/webhook/sms-received" "wh_123"
           Sample.parsed);
    vm_compute; reflexivity.
Defined.

(** ** The entry point *)

(** X17.  The server is started on port 8443 exactly when both the
    certificate path and the key path are set to non-empty strings, and on
    port 8080 in every other case, also when one of the two is configured
    and handed to the server. *)
Theorem port_8443_needs_certificate_and_key :
  forall settings : Settings,
    (port (run_arguments settings) = 8443%Z
     <-> exists cert key,
           ssl_cert settings = Some cert /\ cert <> EmptyString
           /\ ssl_key settings = Some key /\ key <> EmptyString)
    /\ (port (run_arguments settings) = 8443%Z
        \/ port (run_arguments settings) = 8080%Z).
Proof.
  intros settings. unfold run_arguments. cbn [port]. split; [split|].
  - destruct (truthy (ssl_cert settings)) as [cert|] eqn:Hc; [|discriminate].
    destruct (truthy (ssl_key settings)) as [key|] eqn:Hk; [|discriminate].
    intros _. apply truthy_inv in Hc. apply truthy_inv in Hk.
    exists cert, key. intuition.
  - intros (cert & key & Hc & Hcne & Hk & Hkne).
    rewrite Hc, Hk, (truthy_nonempty cert Hcne), (truthy_nonempty key Hkne).
    reflexivity.
  - destruct (truthy (ssl_cert settings)); [|auto].
    destruct (truthy (ssl_key settings)); auto.
Qed.

(** ** The bytes that are signed *)

Lemma encode_ascii (s : str) : isascii s = true -> encode s = list_byte_of_string s.
Proof.
  induction s as [|c rest IH]; [reflexivity|].
  cbn [isascii encode]. intros H. apply andb_prop in H. destruct H as [Hc Hrest].
  rewrite (IH Hrest). unfold encode_char. rewrite Hc.
  cbn [app list_byte_of_string]. f_equal.
  clear. unfold byte_of_N, code_point.
  destruct c as [[] [] [] [] [] [] [] []]; reflexivity.
Qed.

(** X18.  For a timestamp made of ASCII characters, the bytes that are
    signed are the raw body followed by the characters of the header value
    as they came: the request passes the signature block of a configured
    secret exactly when its X-Signature value is the hex HMAC-SHA256 of
    those bytes. *)
Theorem ascii_timestamp_signed_verbatim :
  forall (settings : Settings) (request : Request) (w : World)
         (secret signature timestamp : str),
    truthy (webhook_secret settings) = Some secret ->
    headers_get (headers request) "X-Signature" = Some signature ->
    headers_get (headers request) "X-Timestamp" = Some timestamp ->
    timestamp <> EmptyString ->
    isascii timestamp = true ->
    (snd (verify_signature settings request w) = inr tt
     <-> signature
         = hexdigest (hmac_new (encode secret)
                        (body request ++ list_byte_of_string timestamp))).
Proof.
  intros settings request w secret signature timestamp Hs Hsig Hts Hne Ha.
  rewrite <- (encode_ascii timestamp Ha). split.
  - intros Hv.
    destruct (verify_signature_passes_inv settings request w secret Hs Hv)
      as (signature' & timestamp' & Hsig' & Hts' & _ & Heq).
    rewrite Hsig in Hsig'. injection Hsig' as <-.
    rewrite Hts in Hts'. injection Hts' as <-. exact Heq.
  - intros Heq.
    rewrite (verify_signature_accepts settings request w secret); auto.
    + unfold signature_matches. rewrite Hsig, Hts, Heq. apply String.eqb_refl.
    + rewrite Hts. intros E. injection E as E. contradiction.
Qed.

Lemma ascii_timestamp_signed_verbatim_sample :
  snd (verify_signature Sample.full Sample.signed Sample.registered) = inr tt.
Proof.
  apply (ascii_timestamp_signed_verbatim Sample.full Sample.signed Sample.registered
           "s3cret"
           "9d7a14c8ef16988de2ca08f8992fcda521c1ce744962ab18ee4e0644fdb0c670"
           Sample.timestamp).
  - reflexivity.
  - reflexivity.
  - reflexivity.
  - discriminate.
  - reflexivity.
  - vm_compute. reflexivity.
Defined.

(** * The process under the server *)

Lemma serve_keeps_stored_id (settings : Settings)
    (validate : bytes -> option WebhookPayload) (requests : list Request) (w : World) :
  app_state_webhook_id (serve settings validate requests w) = app_state_webhook_id w.
Proof.
  revert w. induction requests as [|request rest IH]; intros w; [reflexivity|].
  cbn [serve]. rewrite IH. apply post_keeps_stored_id.
Qed.

Lemma serve_keeps_outbound (settings : Settings)
    (validate : bytes -> option WebhookPayload) (requests : list Request) (w : World) :
  outbound (serve settings validate requests w) = outbound w.
Proof.
  revert w. induction requests as [|request rest IH]; intros w; [reflexivity|].
  cbn [serve]. rewrite IH. unfold post_sms_received.
  pose proof (handler_footprint settings validate request w) as (_ & H & _).
  destruct (handle_sms_webhook settings validate request w) as [w' r].
  exact H.
Qed.

(** [Router.lifespan] runs the context manager of lines 99-107 and nothing
    else: the world it leaves and the exception it raises again are those of
    [lifespan] around the same serving. *)
Lemma router_lifespan_runs_lifespan (settings : Settings) (gateway : Gateway)
    (serving : World -> World) (w : World) :
  lifespan settings gateway (fun w1 => (serving w1, inr tt)) w
  = (fst (router_lifespan settings gateway serving w),
     match snd (router_lifespan settings gateway serving w) with
     | StartupFailed e | ShutdownFailed e => inl e
     | Completed => inr tt
     end).
Proof.
  unfold lifespan, router_lifespan, bind.
  destruct (register_webhook settings gateway w) as [w1 [e|[]]]; [reflexivity|].
  destruct (unregister_webhook settings gateway (serving w1)) as [w3 [e|[]]];
    reflexivity.
Qed.

(** A process whose startup succeeded and whose unregistration is accepted
    ends as usual, with the completion logged. *)
Lemma clean_shutdown (settings : Settings) (gateway : Gateway)
    (validate : bytes -> option WebhookPayload) (requests : list Request)
    (w0 w1 : World) (username password url registered : str) :
  truthy (api_username settings) = Some username ->
  truthy (api_password settings) = Some password ->
  truthy (webhook_url settings) = Some url ->
  register_webhook settings gateway w0 = (w1, inr tt) ->
  app_state_webhook_id w1 = Some registered ->
  failure_of (gateway (DELETE (api_url settings +++ "/webhooks/" +++ registered)
                              (username, password))) = None ->
  exit_status (uvicorn_run settings gateway validate requests w0) = exit_as_usual
  /\ uvicorn_log (uvicorn_run settings gateway validate requests w0)
     = [INFO "Waiting for application startup.";
        INFO "Application startup complete.";
        INFO "Waiting for application shutdown.";
        INFO "Application shutdown complete."].
Proof.
  intros Hu Hp Hurl Hreg Hid Hok.
  unfold uvicorn_run, router_lifespan. rewrite Hreg.
  rewrite (unregister_webhook_success settings gateway
             (serve settings validate requests w1) username password url registered);
    auto.
  rewrite serve_keeps_stored_id. exact Hid.
Qed.

(** ** C3 *)


